(** * Update flow of the package-manager client

    A shallow embedding of [src/AppInstallerCLICore/Workflows/UpdateFlow.cpp]:
    the applicability predicate on versions, the per-package selection step
    [SelectLatestApplicableUpdate], the re-validation step
    [EnsureUpdateVersionApplicable] and the batch step [UpdateAllApplicable].

    The workflow file is embedded function by function.  The classes it uses
    but does not define (versions, the execution context, the manifest
    comparator, the other workflow tasks) are either modelled from the
    specification, and marked so, or taken as variables of the section that
    holds the workflow. *)

From Stdlib Require Import Bool List String Ascii NArith ZArith Lia.
Import ListNotations.

Local Open Scope string_scope.
Local Open Scope list_scope.

Set Implicit Arguments.

(* ================================================================== *)
(** * Versions *)

Module Utility.

(** [m_version] is the text the version was built from, [m_parts] its
    numeric components. *)
Record Version : Type := mkVersion
  { m_version : string;
    m_parts : list N }.

Definition isDigit (c : ascii) : bool :=
  let n := N_of_ascii c in ((48 <=? n) && (n <=? 57))%N.

(** The decimal number a component starts with (0 when it starts with none). *)
Fixpoint leadingInteger (s : string) (acc : N) : N :=
  match s with
  | String c s' =>
      if isDigit c then leadingInteger s' (10 * acc + (N_of_ascii c - 48))%N
      else acc
  | EmptyString => acc
  end.

(** Splits at every dot: the component being read and the ones after it. *)
Fixpoint splitParts (s : string) : string * list string :=
  match s with
  | EmptyString => (EmptyString, [])
  | String c s' =>
      let '(p, ps) := splitParts s' in
      if Ascii.eqb c "."%char then (EmptyString, p :: ps) else (String c p, ps)
  end.

Fixpoint dropTrailingZeros (l : list N) : list N :=
  match l with
  | [] => []
  | x :: r =>
      match dropTrailingZeros r with
      | [] => if (x =? 0)%N then [] else [x]
      | r' => x :: r'
      end
  end.

(** Modelled from the spec: [Utility::Version] is declared outside this
    file.  The spec gives "parsed from a string; total order by component
    comparison": the text is cut at the dots, each component is read as a
    number, and components that are zero at the end do not count. *)
Definition Version_of (s : string) : Version :=
  let '(p, ps) := splitParts s in
  {| m_version := s;
     m_parts := dropTrailingZeros (map (fun x => leadingInteger x 0%N) (p :: ps)) |}.

Fixpoint parts_lt (a b : list N) : bool :=
  match a, b with
  | [], [] => false
  | [], _ :: _ => true
  | _ :: _, [] => false
  | x :: a', y :: b' =>
      if (x <? y)%N then true
      else if (y <? x)%N then false
      else parts_lt a' b'
  end.

(** Modelled from the spec: [operator<] of [Utility::Version], the
    component-wise comparison. *)
Definition Version_lt (a b : Version) : bool := parts_lt (m_parts a) (m_parts b).

(** Modelled from the spec: [operator==] of [Utility::Version]; two versions
    are equal when the comparison separates them in neither direction,
    which for component lists is equality of the lists. *)
Definition Version_eq (a b : Version) : Prop := m_parts a = m_parts b.

(** Modelled from the spec: [Version::IsLatest], "set when the string
    equals a reserved latest sentinel value". *)
Definition s_Version_Part_Latest : string := "Latest".

Definition IsLatest (v : Version) : bool :=
  String.eqb (m_version v) s_Version_Part_Latest.

End Utility.

Import Utility.

(* ================================================================== *)
(** * The applicability predicate (UpdateFlow.cpp, lines 17-20) *)

Definition IsUpdateVersionApplicable (installedVersion updateVersion : Version) : bool :=
  Version_lt installedVersion updateVersion || IsLatest updateVersion.

(* ================================================================== *)
(** * Catalog objects

    The workflow file only reads these objects.  Each is a record with the
    members the file uses; interfaces are records of their methods. *)

Module Manifest.

Inductive ArchitectureEnum := Neutral | X86 | X64 | Arm64.
Inductive InstallerTypeEnum := Exe | Msi | Msix | Inno | Portable.
Inductive ScopeEnum := ScopeUnknown | ScopeUser | ScopeMachine.

(** One installer with its applicability attributes. *)
Record ManifestInstaller : Type :=
  { Arch : ArchitectureEnum;
    InstallerType : InstallerTypeEnum;
    Scope : ScopeEnum;
    Locale : string;
    Url : string }.

Record Manifest : Type :=
  { Id : string;
    Version : string;
    Installers : list ManifestInstaller;
    CurrentLocalization : string }.

(** Modelled from the spec: [Manifest::ApplyLocale] is defined outside this
    file; "apply the installer's locale to the manifest" makes that locale
    the manifest's current localization and leaves the rest as it is. *)
Definition ApplyLocale (m : Manifest) (locale : string) : Manifest :=
  {| Id := Id m;
     Version := Version m;
     Installers := Installers m;
     CurrentLocalization := locale |}.

End Manifest.

Module Repository.

Inductive PackageVersionProperty :=
  Id | Name | SourceIdentifier | SourceName | Version | Channel.

Inductive PackageVersionMetadata :=
  InstalledType | InstalledScope | InstalledLocation | InstalledLocale.

(** [IPackageVersion::Metadata], a map from metadata key to text. *)
Definition Metadata : Type := list (PackageVersionMetadata * string).

Record IPackageVersion : Type :=
  { GetProperty : PackageVersionProperty -> string;
    GetManifest : Manifest.Manifest;
    GetMetadata : Metadata }.

Record PackageVersionKey : Type :=
  { KeySourceId : string;
    KeyVersion : string;
    KeyChannel : string }.

Record IPackage : Type :=
  { GetInstalledVersion : option IPackageVersion;
    GetAvailableVersionKeys : list PackageVersionKey;
    GetAvailableVersion : PackageVersionKey -> IPackageVersion }.

Record ResultMatch : Type := { Package : IPackage }.

Record SearchResult : Type := { Matches : list ResultMatch }.

End Repository.

(** Modelled from the spec: [InapplicabilityFlags] is declared with the
    manifest comparator, outside this file.  The spec asks for a flag set
    ("bitset or set-of-enum") in which several reasons may apply to one
    installer; here a bit mask, one bit per reason, joined with [N.lor]. *)
Module InapplicabilityFlags.
Definition t : Type := N.
Definition None : t := 0%N.
Definition OS : t := 1%N.
Definition InstalledScope : t := 2%N.
Definition InstalledType : t := 4%N.
Definition InstalledLocale : t := 8%N.
Definition Locale : t := 16%N.
Definition Scope : t := 32%N.
Definition MachineArchitecture : t := 64%N.
Definition eqb (a b : t) : bool := N.eqb a b.
End InapplicabilityFlags.

(** The comparator as the workflow sees it: one method, which returns the
    chosen installer, if any, and one flag set per rejected installer. *)
Record ManifestComparator : Type :=
  { GetPreferredInstaller :
      Manifest.Manifest ->
      option Manifest.ManifestInstaller * list InapplicabilityFlags.t }.

(* ================================================================== *)
(** * The execution context *)

Definition HRESULT : Type := Z.

Module Resource.
(** The three messages the workflow file names. *)
Inductive String :=
| UpgradeDifferentInstallTechnologyInNewerVersions
| UpdateNotApplicable
| InstallAndUpgradeCommandsReportDependencies.

Definition eqb (a b : String) : bool :=
  match a, b with
  | UpgradeDifferentInstallTechnologyInNewerVersions,
    UpgradeDifferentInstallTechnologyInNewerVersions => true
  | UpdateNotApplicable, UpdateNotApplicable => true
  | InstallAndUpgradeCommandsReportDependencies,
    InstallAndUpgradeCommandsReportDependencies => true
  | _, _ => false
  end.
End Resource.

Inductive ExecutionStage := Initial | ParseArgs | Discovery | Download | PreExecution | Execution | PostExecution.

Module Execution.

Record PackageToInstall : Type :=
  { PackageVersion : Repository.IPackageVersion;
    InstalledPackageVersion : Repository.IPackageVersion;
    Manifest : Manifest.Manifest;
    Installer : Manifest.ManifestInstaller;
    PackageSubExecutionId : N }.

(** The keys of the data store that the workflow file touches. *)
Module Data.
Inductive t :=
| Package | InstalledPackageVersion | Manifest | PackageVersion
| Installer | SearchResult | PackagesToInstall.
End Data.

(** The typed data store: one slot per key, each of the type the key is
    mapped to. *)
Record DataMap : Type :=
  { dPackage : option Repository.IPackage;
    dInstalledPackageVersion : option Repository.IPackageVersion;
    dManifest : option Manifest.Manifest;
    dPackageVersion : option Repository.IPackageVersion;
    dInstaller : option (option Manifest.ManifestInstaller);
    dSearchResult : option Repository.SearchResult;
    dPackagesToInstall : option (list PackageToInstall) }.

Definition emptyData : DataMap :=
  {| dPackage := None; dInstalledPackageVersion := None; dManifest := None;
     dPackageVersion := None; dInstaller := None; dSearchResult := None;
     dPackagesToInstall := None |}.

(** Modelled from the spec: [Execution::Context] is declared outside this
    file.  It is "a typed key/value data store, an output reporter handle,
    and a single terminal error slot" (absent: still running).  The
    reporter is the shared sink; what a task writes to it is carried by
    [Outcome] below, so the handle has no field here. *)
Record Context : Type :=
  { Data_ : DataMap;
    TerminationHR : option HRESULT }.

Definition IsTerminated (c : Context) : bool :=
  match TerminationHR c with Some _ => true | None => false end.

(** [Context::Terminate]: fills the terminal slot. *)
Definition Terminate (c : Context) (hr : HRESULT) : Context :=
  {| Data_ := Data_ c; TerminationHR := Some hr |}.

(** Modelled from the spec: a clone has "an independent data store and
    independent terminal-result slot" and shares the output sink. *)
Definition Clone (c : Context) : Context :=
  {| Data_ := emptyData; TerminationHR := None |}.

Definition withData (c : Context) (d : DataMap) : Context :=
  {| Data_ := d; TerminationHR := TerminationHR c |}.

(** [Context::Add<D>], one definition per key used. *)
Definition Add_Package (c : Context) (v : Repository.IPackage) : Context :=
  let d := Data_ c in
  withData c
    {| dPackage := Some v; dInstalledPackageVersion := dInstalledPackageVersion d;
       dManifest := dManifest d; dPackageVersion := dPackageVersion d;
       dInstaller := dInstaller d; dSearchResult := dSearchResult d;
       dPackagesToInstall := dPackagesToInstall d |}.

Definition Add_InstalledPackageVersion (c : Context) (v : Repository.IPackageVersion) : Context :=
  let d := Data_ c in
  withData c
    {| dPackage := dPackage d; dInstalledPackageVersion := Some v;
       dManifest := dManifest d; dPackageVersion := dPackageVersion d;
       dInstaller := dInstaller d; dSearchResult := dSearchResult d;
       dPackagesToInstall := dPackagesToInstall d |}.

Definition Add_Manifest (c : Context) (v : Manifest.Manifest) : Context :=
  let d := Data_ c in
  withData c
    {| dPackage := dPackage d; dInstalledPackageVersion := dInstalledPackageVersion d;
       dManifest := Some v; dPackageVersion := dPackageVersion d;
       dInstaller := dInstaller d; dSearchResult := dSearchResult d;
       dPackagesToInstall := dPackagesToInstall d |}.

Definition Add_PackageVersion (c : Context) (v : Repository.IPackageVersion) : Context :=
  let d := Data_ c in
  withData c
    {| dPackage := dPackage d; dInstalledPackageVersion := dInstalledPackageVersion d;
       dManifest := dManifest d; dPackageVersion := Some v;
       dInstaller := dInstaller d; dSearchResult := dSearchResult d;
       dPackagesToInstall := dPackagesToInstall d |}.

Definition Add_Installer (c : Context) (v : option Manifest.ManifestInstaller) : Context :=
  let d := Data_ c in
  withData c
    {| dPackage := dPackage d; dInstalledPackageVersion := dInstalledPackageVersion d;
       dManifest := dManifest d; dPackageVersion := dPackageVersion d;
       dInstaller := Some v; dSearchResult := dSearchResult d;
       dPackagesToInstall := dPackagesToInstall d |}.

Definition Add_SearchResult (c : Context) (v : Repository.SearchResult) : Context :=
  let d := Data_ c in
  withData c
    {| dPackage := dPackage d; dInstalledPackageVersion := dInstalledPackageVersion d;
       dManifest := dManifest d; dPackageVersion := dPackageVersion d;
       dInstaller := dInstaller d; dSearchResult := Some v;
       dPackagesToInstall := dPackagesToInstall d |}.

Definition Add_PackagesToInstall (c : Context) (v : list PackageToInstall) : Context :=
  let d := Data_ c in
  withData c
    {| dPackage := dPackage d; dInstalledPackageVersion := dInstalledPackageVersion d;
       dManifest := dManifest d; dPackageVersion := dPackageVersion d;
       dInstaller := dInstaller d; dSearchResult := dSearchResult d;
       dPackagesToInstall := Some v |}.

(** What escapes a task when a contract is broken. *)
Inductive Fatal :=
| DataNotFound (d : Data.t)
| BadOptionalAccess.

(** The result of running code against a context: it returns a value and
    the lines it wrote to the shared reporter, in order, or it is cut short
    by a fatal failure. *)
Inductive Outcome (A : Type) : Type :=
| Returned (a : A) (written : list Resource.String)
| Thrown (e : Fatal).
Arguments Thrown {A} e.

Definition ret {A} (a : A) : Outcome A := Returned a [].

Definition bind {A B} (m : Outcome A) (f : A -> Outcome B) : Outcome B :=
  match m with
  | Returned a w =>
      match f a with
      | Returned b w' => Returned b (w ++ w')
      | Thrown e => Thrown e
      end
  | Thrown e => Thrown e
  end.

(** [context.Reporter.Info() << msg << std::endl]. *)
Definition Info (msg : Resource.String) : Outcome unit := Returned tt [msg].

(** Modelled from the spec: [Context::Get<D>] is defined outside this file;
    missing required context data is a contract violation that surfaces as
    a failure "distinct from the above codes". *)
Definition Get {A} (key : Data.t) (slot : option A) : Outcome A :=
  match slot with
  | Some v => ret v
  | None => Thrown (DataNotFound key)
  end.

(** [std::optional::value]. *)
Definition value {A} (o : option A) : Outcome A :=
  match o with
  | Some v => ret v
  | None => Thrown BadOptionalAccess
  end.

Definition WorkflowTask : Type := Context -> Outcome Context.

(** Modelled from the spec: [operator<<] on a context and a task; a filled
    terminal slot "short-circuits further steps". *)
Definition pipe (c : Context) (task : WorkflowTask) : Outcome Context :=
  if IsTerminated c then ret c else task c.

End Execution.

Import Execution.

Declare Scope flow_scope.
Delimit Scope flow_scope with flow.
Notation "x <- m ;; k" := (bind m (fun x => k))
  (at level 61, m at next level, right associativity) : flow_scope.
Notation "m ;;; k" := (bind m (fun _ => k))
  (at level 61, right associativity) : flow_scope.
Notation "c << t" := (bind c (fun c' => pipe c' t))
  (at level 55, left associativity) : flow_scope.
Local Open Scope flow_scope.


(* ================================================================== *)
(** * Deduplication of the batch (UpdateFlow.cpp, lines 22-35) *)

(** The condition of the [if] in the loop over the existing entries. *)
Definition sameUpdate (existing package : PackageToInstall) : bool :=
  String.eqb (Manifest.Id (Manifest existing)) (Manifest.Id (Manifest package)) &&
  String.eqb (Manifest.Version (Manifest existing)) (Manifest.Version (Manifest package)) &&
  String.eqb
    (Repository.GetProperty (PackageVersion existing) Repository.SourceIdentifier)
    (Repository.GetProperty (PackageVersion package) Repository.SourceIdentifier).

Fixpoint isPresent (packagesToInstall : list PackageToInstall) (package : PackageToInstall) : bool :=
  match packagesToInstall with
  | [] => false
  | existing :: rest =>
      if sameUpdate existing package then true else isPresent rest package
  end.

Definition AddToPackagesToInstallIfNotPresent
  (packagesToInstall : list PackageToInstall) (package : PackageToInstall)
  : list PackageToInstall :=
  if isPresent packagesToInstall package then packagesToInstall
  else packagesToInstall ++ [package].

(* ================================================================== *)
(** * The scan over the version keys (UpdateFlow.cpp, lines 44-85) *)

(** What the loop did with a key, in the order it did it: it built the key's
    version and tested it, and for a key that passed it asked the package for
    that version. *)
Inductive ScanEvent :=
| VersionChecked (key : Repository.PackageVersionKey)
| VersionResolved (key : Repository.PackageVersionKey).

Record ScanResult : Type :=
  { updateFound : bool;
    installedTypeInapplicable : bool;
    scanContext : Context;
    scanTrace : list ScanEvent }.

Definition logged (evs : list ScanEvent) (r : ScanResult) : ScanResult :=
  {| updateFound := updateFound r;
     installedTypeInapplicable := installedTypeInapplicable r;
     scanContext := scanContext r;
     scanTrace := evs ++ scanTrace r |}.

(** [std::find(begin, end, InapplicabilityFlags::InstalledType) != end]. *)
Definition foundInstalledType (inapplicabilities : list InapplicabilityFlags.t) : bool :=
  existsb (InapplicabilityFlags.eqb InapplicabilityFlags.InstalledType) inapplicabilities.

Fixpoint scanVersionKeys
  (package : Repository.IPackage) (manifestComparator : ManifestComparator)
  (installedVersion : Version) (versionKeys : list Repository.PackageVersionKey)
  (installedTypeInapplicable : bool) (context : Context) : ScanResult :=
  match versionKeys with
  | [] =>
      {| updateFound := false;
         installedTypeInapplicable := installedTypeInapplicable;
         scanContext := context;
         scanTrace := [] |}
  | key :: rest =>
      if IsUpdateVersionApplicable installedVersion (Version_of (Repository.KeyVersion key)) then
        let packageVersion := Repository.GetAvailableVersion package key in
        let manifest := Repository.GetManifest packageVersion in
        let '(installer, inapplicabilities) := GetPreferredInstaller manifestComparator manifest in
        match installer with
        | None =>
            logged [VersionChecked key; VersionResolved key]
              (scanVersionKeys package manifestComparator installedVersion rest
                 (if foundInstalledType inapplicabilities then true
                  else installedTypeInapplicable)
                 context)
        | Some chosen =>
            let manifest' := Manifest.ApplyLocale manifest (Manifest.Locale chosen) in
            {| updateFound := true;
               installedTypeInapplicable := installedTypeInapplicable;
               scanContext :=
                 Add_Installer
                   (Add_PackageVersion (Add_Manifest context manifest') packageVersion)
                   installer;
               scanTrace := [VersionChecked key; VersionResolved key] |}
        end
      else
        {| updateFound := false;
           installedTypeInapplicable := installedTypeInapplicable;
           scanContext := context;
           scanTrace := [VersionChecked key] |}
  end.

(** [context.GetTerminationHR() == hr] for an error code [hr]: the terminal
    slot is filled and holds [hr]. *)
Definition terminatedWith (c : Context) (hr : HRESULT) : bool :=
  match TerminationHR c with
  | Some h => Z.eqb h hr
  | None => false
  end.

Record BatchState : Type :=
  { packagesToInstall : list PackageToInstall;
    updateAllFoundUpdate : bool;
    matchIndex : nat }.

Section Workflow.

(** The two error codes the file names; their values come from a header. *)
Variable APPINSTALLER_CLI_ERROR_UPDATE_NOT_APPLICABLE : HRESULT.
Variable APPINSTALLER_CLI_ERROR_UPDATE_ALL_HAS_FAILURE : HRESULT.

(** The constructor of the comparator: [ManifestComparator(context, metadata)]. *)
Variable newManifestComparator : Context -> Repository.Metadata -> ManifestComparator.

(** The tasks of other workflow files. *)
Variable GetInstalledPackageVersion : WorkflowTask.
Variable ReportExecutionStage : ExecutionStage -> WorkflowTask.
Variable InstallMultiplePackages :
  Resource.String -> HRESULT -> list HRESULT -> WorkflowTask.

(** The identifier the telemetry scope of the n-th loop round hands out. *)
Variable GetCurrentSubExecutionId : nat -> N.

(** ** SelectLatestApplicableUpdate (lines 38-103) *)

(** Lines 40-85: the reads from the context and the loop. *)
Definition SelectLatestApplicableUpdate_scan (context : Context) : Outcome ScanResult :=
  package <- Get Data.Package (dPackage (Data_ context)) ;;
  installedPackage <-
    Get Data.InstalledPackageVersion (dInstalledPackageVersion (Data_ context)) ;;
  let installedVersion :=
    Version_of (Repository.GetProperty installedPackage Repository.Version) in
  let manifestComparator :=
    newManifestComparator context (Repository.GetMetadata installedPackage) in
  ret (scanVersionKeys package manifestComparator installedVersion
         (Repository.GetAvailableVersionKeys package) false context).

(** Lines 87-102: the report and the termination. *)
Definition SelectLatestApplicableUpdate_finish
  (m_reportUpdateNotFound : bool) (r : ScanResult) : Outcome Context :=
  if negb (updateFound r) then
    (if m_reportUpdateNotFound then
       if installedTypeInapplicable r
       then Info Resource.UpgradeDifferentInstallTechnologyInNewerVersions
       else Info Resource.UpdateNotApplicable
     else ret tt) ;;;
    ret (Terminate (scanContext r) APPINSTALLER_CLI_ERROR_UPDATE_NOT_APPLICABLE)
  else ret (scanContext r).

Definition SelectLatestApplicableUpdate (m_reportUpdateNotFound : bool) : WorkflowTask :=
  fun context =>
    r <- SelectLatestApplicableUpdate_scan context ;;
    SelectLatestApplicableUpdate_finish m_reportUpdateNotFound r.

(** ** EnsureUpdateVersionApplicable (lines 105-116) *)

Definition EnsureUpdateVersionApplicable : WorkflowTask :=
  fun context =>
    installedPackage <-
      Get Data.InstalledPackageVersion (dInstalledPackageVersion (Data_ context)) ;;
    let installedVersion :=
      Version_of (Repository.GetProperty installedPackage Repository.Version) in
    manifest <- Get Data.Manifest (dManifest (Data_ context)) ;;
    let updateVersion := Version_of (Manifest.Version manifest) in
    if negb (IsUpdateVersionApplicable installedVersion updateVersion) then
      Info Resource.UpdateNotApplicable ;;;
      ret (Terminate context APPINSTALLER_CLI_ERROR_UPDATE_NOT_APPLICABLE)
    else ret context.

(** ** UpdateAllApplicable (lines 118-168) *)

(** Lines 129-137: the clone, seeded with the match's package, run through
    the three tasks. *)
Definition runUpdateContext (context : Context) (m : Repository.ResultMatch) : Outcome Context :=
  let updateContext := Add_Package (Clone context) (Repository.Package m) in
  ret updateContext
    << GetInstalledPackageVersion
    << ReportExecutionStage Discovery
    << SelectLatestApplicableUpdate false.

(** Lines 139-153: what one round does with the clone it ran. *)
Definition collectUpdate (st : BatchState) (updateContext : Context) : Outcome BatchState :=
  if terminatedWith updateContext APPINSTALLER_CLI_ERROR_UPDATE_NOT_APPLICABLE then
    ret {| packagesToInstall := packagesToInstall st;
           updateAllFoundUpdate := updateAllFoundUpdate st;
           matchIndex := S (matchIndex st) |}
  else
    packageVersion <- Get Data.PackageVersion (dPackageVersion (Data_ updateContext)) ;;
    installedPackageVersion <-
      Get Data.InstalledPackageVersion (dInstalledPackageVersion (Data_ updateContext)) ;;
    manifest <- Get Data.Manifest (dManifest (Data_ updateContext)) ;;
    installerOpt <- Get Data.Installer (dInstaller (Data_ updateContext)) ;;
    installer <- value installerOpt ;;
    let package :=
      {| PackageVersion := packageVersion;
         InstalledPackageVersion := installedPackageVersion;
         Manifest := manifest;
         Installer := installer;
         PackageSubExecutionId := GetCurrentSubExecutionId (matchIndex st) |} in
    ret {| packagesToInstall :=
             AddToPackagesToInstallIfNotPresent (packagesToInstall st) package;
           updateAllFoundUpdate := true;
           matchIndex := S (matchIndex st) |}.

(** One round of the loop, lines 125-154. *)
Definition UpdateAllApplicable_round
  (context : Context) (st : BatchState) (m : Repository.ResultMatch) : Outcome BatchState :=
  updateContext <- runUpdateContext context m ;;
  collectUpdate st updateContext.

Fixpoint UpdateAllApplicable_loop
  (context : Context) (matches : list Repository.ResultMatch) (st : BatchState)
  : Outcome BatchState :=
  match matches with
  | [] => ret st
  | m :: rest =>
      st' <- UpdateAllApplicable_round context st m ;;
      UpdateAllApplicable_loop context rest st'
  end.

Definition initialBatch : BatchState :=
  {| packagesToInstall := []; updateAllFoundUpdate := false; matchIndex := 0 |}.

Definition UpdateAllApplicable : WorkflowTask :=
  fun context =>
    searchResult <- Get Data.SearchResult (dSearchResult (Data_ context)) ;;
    st <- UpdateAllApplicable_loop context (Repository.Matches searchResult) initialBatch ;;
    if negb (updateAllFoundUpdate st) then
      Info Resource.UpdateNotApplicable ;;;
      ret context
    else
      ret (Add_PackagesToInstall context (packagesToInstall st))
        << InstallMultiplePackages
             Resource.InstallAndUpgradeCommandsReportDependencies
             APPINSTALLER_CLI_ERROR_UPDATE_ALL_HAS_FAILURE
             [APPINSTALLER_CLI_ERROR_UPDATE_NOT_APPLICABLE].

End Workflow.


(* ================================================================== *)
(** * A sample catalog

    Concrete collaborators and packages on which the workflow is run. *)

Module Sample.

Definition UPDATE_NOT_APPLICABLE : HRESULT := 0x8A15002B%Z.
Definition UPDATE_ALL_HAS_FAILURE : HRESULT := 0x8A15002C%Z.
Definition NO_APPLICATIONS_FOUND : HRESULT := 0x8A150014%Z.

Definition typeName (t : Manifest.InstallerTypeEnum) : string :=
  match t with
  | Manifest.Exe => "exe"
  | Manifest.Msi => "msi"
  | Manifest.Msix => "msix"
  | Manifest.Inno => "inno"
  | Manifest.Portable => "portable"
  end.

Fixpoint lookupMetadata (key : Repository.PackageVersionMetadata) (m : Repository.Metadata)
  : option string :=
  match m with
  | [] => None
  | (k, v) :: rest =>
      match k, key with
      | Repository.InstalledType, Repository.InstalledType
      | Repository.InstalledScope, Repository.InstalledScope
      | Repository.InstalledLocation, Repository.InstalledLocation
      | Repository.InstalledLocale, Repository.InstalledLocale => Some v
      | _, _ => lookupMetadata key rest
      end
  end.

(** The running machine is taken to be X64: it runs X64, X86 and neutral
    installers. *)
Definition archApplicable (a : Manifest.ArchitectureEnum) : bool :=
  match a with
  | Manifest.Arm64 => false
  | _ => true
  end.

Definition archExact (a : Manifest.ArchitectureEnum) : bool :=
  match a with
  | Manifest.X64 => true
  | _ => false
  end.

(** The reasons one installer is rejected, joined into one flag set. *)
Definition inapplicabilityOf
  (metadata : Repository.Metadata) (installer : Manifest.ManifestInstaller)
  : InapplicabilityFlags.t :=
  N.lor
    (match lookupMetadata Repository.InstalledType metadata with
     | Some t =>
         if String.eqb t (typeName (Manifest.InstallerType installer))
         then InapplicabilityFlags.None else InapplicabilityFlags.InstalledType
     | None => InapplicabilityFlags.None
     end)
    (if archApplicable (Manifest.Arch installer)
     then InapplicabilityFlags.None else InapplicabilityFlags.MachineArchitecture).

Definition qualifies (metadata : Repository.Metadata) (i : Manifest.ManifestInstaller) : bool :=
  N.eqb (inapplicabilityOf metadata i) InapplicabilityFlags.None.

(** Modelled from the spec: the manifest comparator is defined outside this
    file.  "An installer qualifies only if it fails none of the checks";
    among the qualifying ones an exact architecture goes before a compatible
    one, then the manifest's order decides; without a qualifying installer
    the result is empty, with the reasons of every rejected installer. *)
Definition sampleComparator (context : Context) (metadata : Repository.Metadata)
  : ManifestComparator :=
  {| GetPreferredInstaller := fun manifest =>
       let installers := Manifest.Installers manifest in
       let good := filter (qualifies metadata) installers in
       let rejected :=
         map (inapplicabilityOf metadata)
             (filter (fun i => negb (qualifies metadata i)) installers) in
       match filter (fun i => archExact (Manifest.Arch i)) good with
       | best :: _ => (Some best, rejected)
       | [] => (hd_error good, rejected)
       end |}.

(** The installed-package store: it puts the package's installed version in
    the context, and signals that none is installed by terminating. *)
Definition sampleGetInstalledPackageVersion : WorkflowTask :=
  fun context =>
    package <- Get Data.Package (dPackage (Data_ context)) ;;
    match Repository.GetInstalledVersion package with
    | Some v => ret (Add_InstalledPackageVersion context v)
    | None => ret (Terminate context NO_APPLICATIONS_FOUND)
    end.

Definition sampleReportExecutionStage (stage : ExecutionStage) : WorkflowTask :=
  fun context => ret context.

(** The batch installer of the sample only shows that it ran: it writes the
    label it was given. *)
Definition sampleInstallMultiplePackages
  (label : Resource.String) (failure : HRESULT) (ignorable : list HRESULT) : WorkflowTask :=
  fun context => Info label ;;; ret context.

Definition sampleSubExecutionId (n : nat) : N := N.of_nat (S n).

Definition installer (arch : Manifest.ArchitectureEnum) (type : Manifest.InstallerTypeEnum)
  (locale : string) : Manifest.ManifestInstaller :=
  {| Manifest.Arch := arch;
     Manifest.InstallerType := type;
     Manifest.Scope := Manifest.ScopeUnknown;
     Manifest.Locale := locale;
     Manifest.Url := "https://example.org/" ++ typeName type |}.

Definition key (source version : string) : Repository.PackageVersionKey :=
  {| Repository.KeySourceId := source;
     Repository.KeyVersion := version;
     Repository.KeyChannel := "" |}.

Definition packageVersion (id source version : string)
  (installers : list Manifest.ManifestInstaller) (metadata : Repository.Metadata)
  : Repository.IPackageVersion :=
  {| Repository.GetProperty := fun p =>
       match p with
       | Repository.Id => id
       | Repository.Name => id
       | Repository.SourceIdentifier => source
       | Repository.SourceName => source
       | Repository.Version => version
       | Repository.Channel => ""
       end;
     Repository.GetManifest :=
       {| Manifest.Id := id;
          Manifest.Version := version;
          Manifest.Installers := installers;
          Manifest.CurrentLocalization := "" |};
     Repository.GetMetadata := metadata |}.

Fixpoint installersOf (version : string)
  (versions : list (string * list Manifest.ManifestInstaller))
  : list Manifest.ManifestInstaller :=
  match versions with
  | [] => []
  | (v, ins) :: rest => if String.eqb v version then ins else installersOf version rest
  end.

(** A package of source [source], installed from an msi when [installed]
    names a version, with the given available versions, newest first. *)
Definition package (id source : string) (installed : option string)
  (versions : list (string * list Manifest.ManifestInstaller)) : Repository.IPackage :=
  {| Repository.GetInstalledVersion :=
       match installed with
       | Some v =>
           Some (packageVersion id "installed" v [] [(Repository.InstalledType, "msi")])
       | None => None
       end;
     Repository.GetAvailableVersionKeys := map (fun v => key source (fst v)) versions;
     Repository.GetAvailableVersion := fun k =>
       packageVersion id source (Repository.KeyVersion k)
         (installersOf (Repository.KeyVersion k) versions) [] |}.

Definition msiX64 : Manifest.ManifestInstaller := installer Manifest.X64 Manifest.Msi "en-US".
Definition exeX64 : Manifest.ManifestInstaller := installer Manifest.X64 Manifest.Exe "fr-FR".
Definition msiArm64 : Manifest.ManifestInstaller := installer Manifest.Arm64 Manifest.Msi "en-US".

(** Installed 2.0; 3.0 has only an installer of another technology, 2.5 has
    a fitting one. *)
Definition pkgSkipNewest : Repository.IPackage :=
  package "Contoso.Editor" "winget" (Some "2.0") [("3.0", [exeX64]); ("2.5", [msiX64])].

(** Installed 2.0; every available version is older. *)
Definition pkgAllOlder : Repository.IPackage :=
  package "Contoso.Viewer" "winget" (Some "2.0") [("1.5", [msiX64]); ("1.0", [msiX64])].

(** Installed 2.0; 3.0 has one installer of another technology and one for
    another machine. *)
Definition pkgMixedReasons : Repository.IPackage :=
  package "Contoso.Mixer" "winget" (Some "2.0") [("3.0", [exeX64; msiArm64])].

(** Installed 1.0; 2.0 fits. *)
Definition pkgPlain : Repository.IPackage :=
  package "Contoso.Plain" "winget" (Some "1.0") [("2.0", [msiX64])].

(** The store knows no installed version of this one. *)
Definition pkgNotInstalled : Repository.IPackage :=
  package "Contoso.Ghost" "winget" None [("2.0", [msiX64])].

(** Installed 2.0; 3.0 has only an installer of another technology, the
    versions after it are older than the installed one. *)
Definition pkgSkipThenOlder : Repository.IPackage :=
  package "Contoso.Stale" "winget" (Some "2.0")
    [("3.0", [exeX64]); ("1.5", [msiX64]); ("1.0", [msiX64])].

(** The metadata of the installed versions of the sample. *)
Definition installedFromMsi : Repository.Metadata := [(Repository.InstalledType, "msi")].

(** The same update as the one [pkgSkipNewest] resolves to, reached through
    another match. *)
Definition pkgEditorAgain : Repository.IPackage :=
  package "Contoso.Editor" "winget" (Some "2.0") [("2.5", [msiX64])].

(** Installed 2.0; 4.0 has only an installer for another machine, 3.0 only an
    installer of another technology. *)
Definition pkgTwoSkipped : Repository.IPackage :=
  package "Contoso.Pair" "winget" (Some "2.0") [("4.0", [msiArm64]); ("3.0", [exeX64])].

(** Installed 2.0; the keys are not in order: 1.0 comes before 3.0. *)
Definition pkgUnsorted : Repository.IPackage :=
  package "Contoso.Shuffled" "winget" (Some "2.0") [("1.0", [msiX64]); ("3.0", [msiX64])].

Definition emptyContext : Context :=
  {| Data_ := emptyData; TerminationHR := None |}.

(** A context as the selection step expects it. *)
Definition contextFor (p : Repository.IPackage) : Context :=
  match Repository.GetInstalledVersion p with
  | Some v => Add_InstalledPackageVersion (Add_Package emptyContext p) v
  | None => Add_Package emptyContext p
  end.

(** A context that holds a search result with the given packages. *)
Definition searchContext (ps : list Repository.IPackage) : Context :=
  Add_SearchResult emptyContext
    {| Repository.Matches := map (fun p => {| Repository.Package := p |}) ps |}.

Definition Select (report : bool) : WorkflowTask :=
  SelectLatestApplicableUpdate UPDATE_NOT_APPLICABLE sampleComparator report.

Definition SelectScan (context : Context) : Outcome ScanResult :=
  SelectLatestApplicableUpdate_scan sampleComparator context.

Definition UpdateAll : WorkflowTask :=
  UpdateAllApplicable UPDATE_NOT_APPLICABLE UPDATE_ALL_HAS_FAILURE sampleComparator
    sampleGetInstalledPackageVersion sampleReportExecutionStage
    sampleInstallMultiplePackages sampleSubExecutionId.

Definition runClone (context : Context) (p : Repository.IPackage) : Outcome Context :=
  runUpdateContext UPDATE_NOT_APPLICABLE sampleComparator
    sampleGetInstalledPackageVersion sampleReportExecutionStage
    context {| Repository.Package := p |}.

Definition UpdateAllLoop (context : Context) (ps : list Repository.IPackage)
  : Outcome BatchState :=
  UpdateAllApplicable_loop UPDATE_NOT_APPLICABLE sampleComparator
    sampleGetInstalledPackageVersion sampleReportExecutionStage sampleSubExecutionId
    context (map (fun p => {| Repository.Package := p |}) ps) initialBatch.

Definition Ensure : WorkflowTask :=
  EnsureUpdateVersionApplicable UPDATE_NOT_APPLICABLE.

(** The installed version the store holds for the packages of the sample. *)
Definition installedVersion (id version : string) : Repository.IPackageVersion :=
  packageVersion id "installed" version [] installedFromMsi.

(** A context that holds the installed version of the package and the
    manifest of one of its available versions. *)
Definition revalidationContext (p : Repository.IPackage) (version : string) : Context :=
  Add_Manifest (contextFor p)
    (Repository.GetManifest (Repository.GetAvailableVersion p (key "winget" version))).

(** The record of an update to the given version, found through the given
    source. *)
Definition update (id source version : string) (n : N) : PackageToInstall :=
  {| PackageVersion := packageVersion id source version [msiX64] [];
     InstalledPackageVersion := installedVersion id "1.0";
     Manifest := Repository.GetManifest (packageVersion id source version [msiX64] []);
     Installer := msiX64;
     PackageSubExecutionId := n |}.

End Sample.


(* ================================================================== *)
(** * Vocabulary of the statements *)

(** What the comparator answers for the version a key resolves to. *)
Definition preferredFor (package : Repository.IPackage) (cmp : ManifestComparator)
  (key : Repository.PackageVersionKey)
  : option Manifest.ManifestInstaller * list InapplicabilityFlags.t :=
  GetPreferredInstaller cmp (Repository.GetManifest (Repository.GetAvailableVersion package key)).

Definition applicableKey (installedVersion : Version) (key : Repository.PackageVersionKey) : bool :=
  IsUpdateVersionApplicable installedVersion (Version_of (Repository.KeyVersion key)).

(** The key passes the version test and the comparator rejects every
    installer of its version. *)
Definition skippedKey (package : Repository.IPackage) (cmp : ManifestComparator)
  (installedVersion : Version) (key : Repository.PackageVersionKey) : bool :=
  applicableKey installedVersion key &&
  match fst (preferredFor package cmp key) with
  | Some _ => false
  | None => true
  end.

(** Some installer of the key's version was rejected for the installed type
    and for nothing else. *)
Definition someInstalledTypeOnly (package : Repository.IPackage) (cmp : ManifestComparator)
  (key : Repository.PackageVersionKey) : bool :=
  foundInstalledType (snd (preferredFor package cmp key)).

(** Every installer of the key's version was rejected for the installed type
    and for nothing else. *)
Definition allInstalledTypeOnly (package : Repository.IPackage) (cmp : ManifestComparator)
  (key : Repository.PackageVersionKey) : bool :=
  forallb (InapplicabilityFlags.eqb InapplicabilityFlags.InstalledType)
    (snd (preferredFor package cmp key)).

Definition skipEvents (keys : list Repository.PackageVersionKey) : list ScanEvent :=
  flat_map (fun k => [VersionChecked k; VersionResolved k]) keys.

Definition checkedKeys (trace : list ScanEvent) : list Repository.PackageVersionKey :=
  flat_map (fun e => match e with VersionChecked k => [k] | VersionResolved _ => [] end) trace.

Definition resolvedKeys (trace : list ScanEvent) : list Repository.PackageVersionKey :=
  flat_map (fun e => match e with VersionResolved k => [k] | VersionChecked _ => [] end) trace.

(** The scan ends without a selection: after a run of skipped keys the list
    is over or its next key fails the version test. *)
Definition endsWithoutSelection (package : Repository.IPackage) (cmp : ManifestComparator)
  (installedVersion : Version) (keys : list Repository.PackageVersionKey) : Prop :=
  exists skipped rest,
    keys = skipped ++ rest /\
    forallb (skippedKey package cmp installedVersion) skipped = true /\
    match rest with
    | [] => True
    | key :: _ => applicableKey installedVersion key = false
    end.

(** The loop as the selection step runs it on a context that holds its two
    inputs. *)
Definition scanOf (newManifestComparator : Context -> Repository.Metadata -> ManifestComparator)
  (context : Context) (package : Repository.IPackage)
  (installed : Repository.IPackageVersion) : ScanResult :=
  scanVersionKeys package
    (newManifestComparator context (Repository.GetMetadata installed))
    (Version_of (Repository.GetProperty installed Repository.Version))
    (Repository.GetAvailableVersionKeys package) false context.

(** The lines an outcome wrote; none when it was cut short. *)
Definition written {A} (o : Outcome A) : list Resource.String :=
  match o with
  | Returned _ w => w
  | Thrown _ => []
  end.

(** The same outcome with nothing written. *)
Definition silent {A} (o : Outcome A) : Outcome A :=
  match o with
  | Returned a _ => Returned a []
  | Thrown e => Thrown e
  end.

(** The key of the deduplication: package id, version, source identifier. *)
Definition dedupKey (p : PackageToInstall) : string * string * string :=
  (Manifest.Id (Manifest p),
   Manifest.Version (Manifest p),
   Repository.GetProperty (PackageVersion p) Repository.SourceIdentifier).

Definition dedupKey_eqb (a b : string * string * string) : bool :=
  let '(a1, a2, a3) := a in
  let '(b1, b2, b3) := b in
  String.eqb a1 b1 && String.eqb a2 b2 && String.eqb a3 b3.

(** The records of a sequence that no earlier record and no key of [seen]
    shares its key with. *)
Fixpoint firstOccurrences (seen : list (string * string * string))
  (ps : list PackageToInstall) : list PackageToInstall :=
  match ps with
  | [] => []
  | p :: rest =>
      if existsb (fun k => dedupKey_eqb k (dedupKey p)) seen then firstOccurrences seen rest
      else p :: firstOccurrences (seen ++ [dedupKey p]) rest
  end.

(** The clone holds the four items a round reads from it. *)
Definition updateOf (subExecutionId : N) (updateContext : Context) : option PackageToInstall :=
  match dPackageVersion (Data_ updateContext),
        dInstalledPackageVersion (Data_ updateContext),
        dManifest (Data_ updateContext),
        dInstaller (Data_ updateContext) with
  | Some pv, Some ipv, Some m, Some (Some i) =>
      Some {| PackageVersion := pv; InstalledPackageVersion := ipv; Manifest := m;
              Installer := i; PackageSubExecutionId := subExecutionId |}
  | _, _, _, _ => None
  end.

(** The key passes the version test and the comparator chooses an installer
    of its version. *)
Definition eligibleKey (package : Repository.IPackage) (cmp : ManifestComparator)
  (installedVersion : Version) (key : Repository.PackageVersionKey) : bool :=
  applicableKey installedVersion key &&
  match fst (preferredFor package cmp key) with
  | Some _ => true
  | None => false
  end.

(** No key that passes the version test comes after one that fails it. *)
Fixpoint applicableFirst (installedVersion : Version)
  (keys : list Repository.PackageVersionKey) : bool :=
  match keys with
  | [] => true
  | key :: rest =>
      (applicableKey installedVersion key ||
       forallb (fun k => negb (applicableKey installedVersion k)) rest) &&
      applicableFirst installedVersion rest
  end.

(** The failure of the first of the four reads of lines 146-150 that finds
    nothing, if one does. *)
Definition missingItem (updateContext : Context) : option Fatal :=
  match dPackageVersion (Data_ updateContext) with
  | None => Some (DataNotFound Data.PackageVersion)
  | Some _ =>
      match dInstalledPackageVersion (Data_ updateContext) with
      | None => Some (DataNotFound Data.InstalledPackageVersion)
      | Some _ =>
          match dManifest (Data_ updateContext) with
          | None => Some (DataNotFound Data.Manifest)
          | Some _ =>
              match dInstaller (Data_ updateContext) with
              | None => Some (DataNotFound Data.Installer)
              | Some None => Some BadOptionalAccess
              | Some (Some _) => None
              end
          end
      end
  end.

Section CloneVocabulary.

Variable APPINSTALLER_CLI_ERROR_UPDATE_NOT_APPLICABLE : HRESULT.
Variable newManifestComparator : Context -> Repository.Metadata -> ManifestComparator.
Variable GetInstalledPackageVersion : WorkflowTask.
Variable ReportExecutionStage : ExecutionStage -> WorkflowTask.

(** The clone of the match ran to its end and is terminated with the
    not-applicable code. *)
Definition cloneNotApplicable (context : Context) (m : Repository.ResultMatch) : bool :=
  match runUpdateContext APPINSTALLER_CLI_ERROR_UPDATE_NOT_APPLICABLE newManifestComparator
          GetInstalledPackageVersion ReportExecutionStage context m with
  | Returned c _ => terminatedWith c APPINSTALLER_CLI_ERROR_UPDATE_NOT_APPLICABLE
  | Thrown _ => false
  end.

(** The clone of the match ran to its end and is terminated with the
    not-applicable code or holds the four items of an update. *)
Definition cloneCollectable (context : Context) (m : Repository.ResultMatch) : bool :=
  match runUpdateContext APPINSTALLER_CLI_ERROR_UPDATE_NOT_APPLICABLE newManifestComparator
          GetInstalledPackageVersion ReportExecutionStage context m with
  | Returned c _ =>
      terminatedWith c APPINSTALLER_CLI_ERROR_UPDATE_NOT_APPLICABLE ||
      match updateOf 0%N c with
      | Some _ => true
      | None => false
      end
  | Thrown _ => false
  end.

(** What the clone of the match wrote to the shared reporter. *)
Definition cloneOutput (context : Context) (m : Repository.ResultMatch) : list Resource.String :=
  written (runUpdateContext APPINSTALLER_CLI_ERROR_UPDATE_NOT_APPLICABLE newManifestComparator
             GetInstalledPackageVersion ReportExecutionStage context m).

End CloneVocabulary.

Section RecordVocabulary.

Variable APPINSTALLER_CLI_ERROR_UPDATE_NOT_APPLICABLE : HRESULT.
Variable newManifestComparator : Context -> Repository.Metadata -> ManifestComparator.
Variable GetInstalledPackageVersion : WorkflowTask.
Variable ReportExecutionStage : ExecutionStage -> WorkflowTask.
Variable GetCurrentSubExecutionId : nat -> N.

(** The records of the matches, in the order of the matches: one for every
    match whose clone is not terminated with the not-applicable code and holds
    an update, with the correlation id of the round of that match; [n] is the
    number of the first round. *)
Fixpoint roundRecords (context : Context) (n : nat) (matches : list Repository.ResultMatch)
  : list PackageToInstall :=
  match matches with
  | [] => []
  | m :: rest =>
      match runUpdateContext APPINSTALLER_CLI_ERROR_UPDATE_NOT_APPLICABLE
              newManifestComparator GetInstalledPackageVersion ReportExecutionStage
              context m with
      | Returned c _ =>
          if terminatedWith c APPINSTALLER_CLI_ERROR_UPDATE_NOT_APPLICABLE then []
          else
            match updateOf (GetCurrentSubExecutionId n) c with
            | Some p => [p]
            | None => []
            end
      | Thrown _ => []
      end ++ roundRecords context (S n) rest
  end.

End RecordVocabulary.

(** Views of the outcomes of the sample runs. *)
Module SampleView.

Definition selectedVersion (o : Outcome Context) : option string :=
  match o with
  | Returned c _ => option_map Manifest.Version (dManifest (Data_ c))
  | Thrown _ => None
  end.

Definition selectedInstaller (o : Outcome Context) : option Manifest.ManifestInstaller :=
  match o with
  | Returned c _ =>
      match dInstaller (Data_ c) with
      | Some i => i
      | None => None
      end
  | Thrown _ => None
  end.

Definition termination (o : Outcome Context) : option HRESULT :=
  match o with
  | Returned c _ => TerminationHR c
  | Thrown _ => None
  end.

Definition versionsChecked (o : Outcome ScanResult) : list string :=
  match o with
  | Returned r _ => map Repository.KeyVersion (checkedKeys (scanTrace r))
  | Thrown _ => []
  end.

Definition versionsResolved (o : Outcome ScanResult) : list string :=
  match o with
  | Returned r _ => map Repository.KeyVersion (resolvedKeys (scanTrace r))
  | Thrown _ => []
  end.

(** Id, version, source identifier and correlation id of each record handed
    to the batch installer. *)
Definition batch (o : Outcome Context) : option (list (string * string * string * N)) :=
  match o with
  | Returned c _ =>
      option_map (map (fun p => (dedupKey p, PackageSubExecutionId p)))
        (dPackagesToInstall (Data_ c))
  | Thrown _ => None
  end.

End SampleView.

Unset Implicit Arguments.

(* ================================================================== *)
(** * The applicability predicate *)

Lemma parts_lt_irrefl (l : list N) : parts_lt l l = false.
Proof.
  induction l as [|x l IH]; simpl; [reflexivity|].
  rewrite N.ltb_irrefl. exact IH.
Qed.

Lemma parts_lt_asym (a : list N) : forall b, parts_lt a b = true -> parts_lt b a = false.
Proof.
  induction a as [|x a IH]; intros [|y b]; simpl; try congruence.
  destruct (N.ltb_spec x y) as [Hxy|Hxy].
  - intros _. destruct (N.ltb_spec y x); [lia|].
    reflexivity.
  - destruct (N.ltb_spec y x) as [Hyx|Hyx]; [congruence|].
    apply IH.
Qed.

(** C1. [IsUpdateVersionApplicable i c] is true exactly when [i < c] in the
    component-wise order or [c] is flagged latest.  So for a candidate that
    is not flagged latest it is false when [i == c] and when [i > c], and for
    a candidate flagged latest it is true whatever the order says. *)
Theorem IsUpdateVersionApplicable_iff (i c : Version) :
  (IsUpdateVersionApplicable i c = true <-> Version_lt i c = true \/ IsLatest c = true) /\
  (IsLatest c = false ->
   Version_eq i c \/ Version_lt c i = true ->
   IsUpdateVersionApplicable i c = false) /\
  (IsLatest c = true -> IsUpdateVersionApplicable i c = true).
Proof.
  unfold IsUpdateVersionApplicable. split; [|split].
  - apply orb_true_iff.
  - intros Hl [He|Hgt]; rewrite Hl, orb_false_r; unfold Version_lt.
    + rewrite He. apply parts_lt_irrefl.
    + apply parts_lt_asym. exact Hgt.
  - intros ->. apply orb_true_r.
Qed.

(** C1 at 2.0 against 3.0, 2.0, 1.5 and the latest sentinel, whose text
    compares below 2.0. *)
Lemma IsUpdateVersionApplicable_iff_witness :
  IsUpdateVersionApplicable (Version_of "2.0") (Version_of "3.0") = true /\
  IsUpdateVersionApplicable (Version_of "2.0") (Version_of "2.0.0") = false /\
  IsUpdateVersionApplicable (Version_of "2.0") (Version_of "1.5") = false /\
  (Version_lt (Version_of "Latest") (Version_of "2.0") = true /\
   IsUpdateVersionApplicable (Version_of "2.0") (Version_of "Latest") = true).
Proof.
  split; [|split; [|split; [|split]]].
  - apply (proj1 (IsUpdateVersionApplicable_iff (Version_of "2.0") (Version_of "3.0"))).
    left. reflexivity.
  - apply (proj1 (proj2 (IsUpdateVersionApplicable_iff (Version_of "2.0") (Version_of "2.0.0")))).
    + reflexivity.
    + left. reflexivity.
  - apply (proj1 (proj2 (IsUpdateVersionApplicable_iff (Version_of "2.0") (Version_of "1.5")))).
    + reflexivity.
    + right. reflexivity.
  - reflexivity.
  - apply (proj2 (proj2 (IsUpdateVersionApplicable_iff (Version_of "2.0") (Version_of "Latest")))).
    reflexivity.
Defined.

(* ================================================================== *)
(** * The scan over the version keys *)

Lemma logged_nil (r : ScanResult) : logged [] r = r.
Proof. destruct r; reflexivity. Qed.

Lemma logged_app (a b : list ScanEvent) (r : ScanResult) :
  logged (a ++ b) r = logged a (logged b r).
Proof. unfold logged; simpl. now rewrite app_assoc. Qed.

Lemma scan_nil package cmp iv iti context :
  scanVersionKeys package cmp iv [] iti context =
  {| updateFound := false; installedTypeInapplicable := iti;
     scanContext := context; scanTrace := [] |}.
Proof. reflexivity. Qed.

(** A key that fails the version test ends the loop: lines 80-84. *)
Lemma scan_inapplicable package cmp iv key rest iti context :
  applicableKey iv key = false ->
  scanVersionKeys package cmp iv (key :: rest) iti context =
  {| updateFound := false; installedTypeInapplicable := iti;
     scanContext := context; scanTrace := [VersionChecked key] |}.
Proof.
  unfold applicableKey. intros H. simpl. now rewrite H.
Qed.

(** A key whose installers are all rejected sends the loop to the next key:
    lines 59-69. *)
Lemma scan_skipped package cmp iv key rest iti context :
  skippedKey package cmp iv key = true ->
  scanVersionKeys package cmp iv (key :: rest) iti context =
  logged [VersionChecked key; VersionResolved key]
    (scanVersionKeys package cmp iv rest
       (someInstalledTypeOnly package cmp key || iti) context).
Proof.
  unfold skippedKey, someInstalledTypeOnly, applicableKey, preferredFor.
  intros H. apply andb_true_iff in H. destruct H as [Ha Hn]. simpl.
  rewrite Ha.
  destruct (GetPreferredInstaller cmp _) as [[chosen|] flags]; simpl in *.
  - discriminate.
  - destruct (foundInstalledType flags); reflexivity.
Qed.

(** A key that passes the test and has a chosen installer ends the loop with
    the context populated: lines 71-78. *)
Lemma scan_selected package cmp iv key rest iti context chosen flags :
  applicableKey iv key = true ->
  preferredFor package cmp key = (Some chosen, flags) ->
  scanVersionKeys package cmp iv (key :: rest) iti context =
  {| updateFound := true; installedTypeInapplicable := iti;
     scanContext :=
       Add_Installer
         (Add_PackageVersion
            (Add_Manifest context
               (Manifest.ApplyLocale
                  (Repository.GetManifest (Repository.GetAvailableVersion package key))
                  (Manifest.Locale chosen)))
            (Repository.GetAvailableVersion package key))
         (Some chosen);
     scanTrace := [VersionChecked key; VersionResolved key] |}.
Proof.
  unfold applicableKey, preferredFor. intros Ha Hp. simpl.
  rewrite Ha, Hp. reflexivity.
Qed.

Lemma scan_skipped_prefix package cmp iv skipped :
  forall rest iti context,
    forallb (skippedKey package cmp iv) skipped = true ->
    scanVersionKeys package cmp iv (skipped ++ rest) iti context =
    logged (skipEvents skipped)
      (scanVersionKeys package cmp iv rest
         (existsb (someInstalledTypeOnly package cmp) skipped || iti) context).
Proof.
  induction skipped as [|k skipped IH]; intros rest iti context H.
  - simpl. now rewrite logged_nil.
  - simpl in H. apply andb_true_iff in H. destruct H as [Hk Hs].
    rewrite <- app_comm_cons, (scan_skipped _ _ _ _ _ _ _ Hk), (IH _ _ _ Hs).
    change (skipEvents (k :: skipped))
      with ([VersionChecked k; VersionResolved k] ++ skipEvents skipped).
    rewrite logged_app. simpl existsb.
    replace (existsb (someInstalledTypeOnly package cmp) skipped
             || (someInstalledTypeOnly package cmp k || iti))
      with (someInstalledTypeOnly package cmp k
            || existsb (someInstalledTypeOnly package cmp) skipped || iti)
      by (destruct (someInstalledTypeOnly package cmp k),
                   (existsb (someInstalledTypeOnly package cmp) skipped), iti; reflexivity).
    reflexivity.
Qed.

Lemma checkedKeys_skipEvents keys : checkedKeys (skipEvents keys) = keys.
Proof. induction keys as [|k keys IH]; simpl; [reflexivity|now f_equal]. Qed.

Lemma resolvedKeys_skipEvents keys : resolvedKeys (skipEvents keys) = keys.
Proof. induction keys as [|k keys IH]; simpl; [reflexivity|now f_equal]. Qed.

Lemma checkedKeys_app a b : checkedKeys (a ++ b) = checkedKeys a ++ checkedKeys b.
Proof. unfold checkedKeys. apply flat_map_app. Qed.

Lemma resolvedKeys_app a b : resolvedKeys (a ++ b) = resolvedKeys a ++ resolvedKeys b.
Proof. unfold resolvedKeys. apply flat_map_app. Qed.

(** The loop finds an update or it does not, and it does not exactly when the
    key list ends without a selection. *)
Lemma scan_not_found_iff package cmp iv keys :
  forall iti context,
    updateFound (scanVersionKeys package cmp iv keys iti context) = false <->
    endsWithoutSelection package cmp iv keys.
Proof.
  induction keys as [|k keys IH]; intros iti context.
  - split; [|reflexivity]. intros _. exists [], []. simpl. auto.
  - destruct (applicableKey iv k) eqn:Ha.
    + destruct (preferredFor package cmp k) as [[chosen|] flags] eqn:Hp.
      * rewrite (scan_selected _ _ _ _ _ _ _ _ _ Ha Hp). simpl. split; [discriminate|].
        intros (skipped & rest & Hk & Hs & Hr). exfalso.
        destruct skipped as [|k' skipped]; simpl in *.
        -- subst rest. congruence.
        -- injection Hk as <- _. unfold skippedKey in Hs. rewrite Ha, Hp in Hs.
           simpl in Hs. discriminate.
      * assert (Hk : skippedKey package cmp iv k = true)
          by (unfold skippedKey; rewrite Ha, Hp; reflexivity).
        rewrite (scan_skipped _ _ _ _ _ _ _ Hk). simpl. rewrite IH.
        split.
        -- intros (skipped & rest & He & Hs & Hr). exists (k :: skipped), rest.
           simpl. rewrite Hk, Hs, He. auto.
        -- intros (skipped & rest & He & Hs & Hr).
           destruct skipped as [|k' skipped]; simpl in *.
           ++ subst rest. congruence.
           ++ injection He as <- ->. apply andb_true_iff in Hs.
              exists skipped, rest. tauto.
    + rewrite (scan_inapplicable _ _ _ _ _ _ _ Ha). simpl. split; [|reflexivity].
      intros _. exists [], (k :: keys). simpl. auto.
Qed.

(** The loop leaves the terminal slot alone. *)
Lemma scan_termination package cmp iv keys :
  forall iti context,
    TerminationHR (scanContext (scanVersionKeys package cmp iv keys iti context)) =
    TerminationHR context.
Proof.
  induction keys as [|k keys IH]; intros iti context; simpl; [reflexivity|].
  destruct (IsUpdateVersionApplicable _ _); [|reflexivity].
  destruct (GetPreferredInstaller cmp _) as [[chosen|] flags]; simpl; [reflexivity|].
  apply IH.
Qed.

(** Without an update the loop hands the context back as it got it. *)
Lemma scan_not_found_context package cmp iv keys :
  forall iti context,
    updateFound (scanVersionKeys package cmp iv keys iti context) = false ->
    scanContext (scanVersionKeys package cmp iv keys iti context) = context.
Proof.
  induction keys as [|k keys IH]; intros iti context; simpl; [reflexivity|].
  destruct (IsUpdateVersionApplicable _ _); [|reflexivity].
  destruct (GetPreferredInstaller cmp _) as [[chosen|] flags]; simpl; [discriminate|].
  apply IH.
Qed.

(** C2. The scan stops at the first key whose version fails the predicate:
    the keys after it are neither tested nor resolved, whatever they are.  A
    key that passes and whose installers are all rejected sends the scan on
    to the next key.  With 2.0 installed and the keys 3.0 (its one installer
    rejected for the installed type) and 2.5 (fitting), 2.5 is selected; with
    2.0 installed and the keys 1.5 and 1.0 only 1.5 is tested and no update is
    found. *)
Theorem scan_stops_at_first_failing_key :
  (forall package cmp installedVersion skipped key later iti context,
      forallb (skippedKey package cmp installedVersion) skipped = true ->
      applicableKey installedVersion key = false ->
      let r := scanVersionKeys package cmp installedVersion
                 (skipped ++ key :: later) iti context in
      updateFound r = false /\
      scanContext r = context /\
      checkedKeys (scanTrace r) = skipped ++ [key] /\
      resolvedKeys (scanTrace r) = skipped /\
      r = scanVersionKeys package cmp installedVersion (skipped ++ [key]) iti context) /\
  (forall package cmp installedVersion key rest iti context,
      skippedKey package cmp installedVersion key = true ->
      scanVersionKeys package cmp installedVersion (key :: rest) iti context =
      logged [VersionChecked key; VersionResolved key]
        (scanVersionKeys package cmp installedVersion rest
           (someInstalledTypeOnly package cmp key || iti) context)) /\
  (map Repository.KeyVersion (Repository.GetAvailableVersionKeys Sample.pkgSkipNewest)
     = ["3.0"; "2.5"] /\
   map (preferredFor Sample.pkgSkipNewest
          (Sample.sampleComparator Sample.emptyContext Sample.installedFromMsi))
       (Repository.GetAvailableVersionKeys Sample.pkgSkipNewest)
     = [(None, [InapplicabilityFlags.InstalledType]); (Some Sample.msiX64, [])] /\
   SampleView.selectedVersion (Sample.Select true (Sample.contextFor Sample.pkgSkipNewest))
     = Some "2.5" /\
   SampleView.versionsChecked (Sample.SelectScan (Sample.contextFor Sample.pkgSkipNewest))
     = ["3.0"; "2.5"]) /\
  (map Repository.KeyVersion (Repository.GetAvailableVersionKeys Sample.pkgAllOlder)
     = ["1.5"; "1.0"] /\
   SampleView.versionsChecked (Sample.SelectScan (Sample.contextFor Sample.pkgAllOlder))
     = ["1.5"] /\
   SampleView.versionsResolved (Sample.SelectScan (Sample.contextFor Sample.pkgAllOlder))
     = [] /\
   SampleView.selectedVersion (Sample.Select true (Sample.contextFor Sample.pkgAllOlder))
     = None /\
   SampleView.termination (Sample.Select true (Sample.contextFor Sample.pkgAllOlder))
     = Some Sample.UPDATE_NOT_APPLICABLE).
Proof.
  split; [|split; [|split]].
  - intros package cmp iv skipped key later iti context Hs Hk r. subst r.
    rewrite !(scan_skipped_prefix _ _ _ _ _ _ _ Hs).
    rewrite !(scan_inapplicable _ _ _ _ _ _ _ Hk). simpl.
    rewrite checkedKeys_app, resolvedKeys_app, checkedKeys_skipEvents,
      resolvedKeys_skipEvents.
    simpl. rewrite app_nil_r. auto.
  - intros. now apply scan_skipped.
  - repeat split; vm_compute; reflexivity.
  - repeat split; vm_compute; reflexivity.
Qed.

(** C2 on a package with 2.0 installed and the keys 3.0 (rejected), 1.5 and
    1.0: the scan tests 3.0 and 1.5, resolves 3.0 only, and never reaches 1.0. *)
Lemma scan_stops_at_first_failing_key_witness :
  let cmp := Sample.sampleComparator Sample.emptyContext Sample.installedFromMsi in
  let r := scanVersionKeys Sample.pkgSkipThenOlder cmp (Version_of "2.0")
             ([Sample.key "winget" "3.0"] ++ Sample.key "winget" "1.5"
                :: [Sample.key "winget" "1.0"])
             false Sample.emptyContext in
  updateFound r = false /\
  scanContext r = Sample.emptyContext /\
  checkedKeys (scanTrace r) = [Sample.key "winget" "3.0"] ++ [Sample.key "winget" "1.5"] /\
  resolvedKeys (scanTrace r) = [Sample.key "winget" "3.0"] /\
  r = scanVersionKeys Sample.pkgSkipThenOlder cmp (Version_of "2.0")
        ([Sample.key "winget" "3.0"] ++ [Sample.key "winget" "1.5"])
        false Sample.emptyContext.
Proof.
  apply (proj1 scan_stops_at_first_failing_key
           Sample.pkgSkipThenOlder
           (Sample.sampleComparator Sample.emptyContext Sample.installedFromMsi)
           (Version_of "2.0")
           [Sample.key "winget" "3.0"] (Sample.key "winget" "1.5")
           [Sample.key "winget" "1.0"] false Sample.emptyContext).
  - vm_compute. reflexivity.
  - vm_compute. reflexivity.
Defined.

(* ================================================================== *)
(** * The selection step and the re-validation step *)

Lemma bind_ret_l {A B} (a : A) (f : A -> Outcome B) : bind (ret a) f = f a.
Proof. unfold bind, ret. destruct (f a); reflexivity. Qed.

Lemma bind_Returned_nil {A B} (a : A) (f : A -> Outcome B) : bind (Returned a []) f = f a.
Proof. apply bind_ret_l. Qed.

Lemma endsWithoutSelection_cases package cmp iv keys :
  (keys = [] -> endsWithoutSelection package cmp iv keys) /\
  (forall key rest, keys = key :: rest -> applicableKey iv key = false ->
     endsWithoutSelection package cmp iv keys) /\
  (forallb (skippedKey package cmp iv) keys = true ->
     endsWithoutSelection package cmp iv keys).
Proof.
  split; [|split].
  - intros ->. exists [], []. simpl. auto.
  - intros key rest -> H. exists [], (key :: rest). simpl. auto.
  - intros H. exists keys, []. rewrite app_nil_r. auto.
Qed.

Lemma foundInstalledType_iff (flags : list InapplicabilityFlags.t) :
  foundInstalledType flags = true <-> In InapplicabilityFlags.InstalledType flags.
Proof.
  unfold foundInstalledType. rewrite existsb_exists. split.
  - intros (x & Hin & Hx). unfold InapplicabilityFlags.eqb in Hx.
    apply N.eqb_eq in Hx. now rewrite Hx.
  - intros Hin. exists InapplicabilityFlags.InstalledType. split; [exact Hin|].
    reflexivity.
Qed.

Section SelectionProperties.

Variable APPINSTALLER_CLI_ERROR_UPDATE_NOT_APPLICABLE : HRESULT.
Variable newManifestComparator : Context -> Repository.Metadata -> ManifestComparator.

Local Abbreviation Select :=
  (SelectLatestApplicableUpdate APPINSTALLER_CLI_ERROR_UPDATE_NOT_APPLICABLE
     newManifestComparator).
Local Abbreviation SelectScan := (SelectLatestApplicableUpdate_scan newManifestComparator).
Local Abbreviation SelectFinish :=
  (SelectLatestApplicableUpdate_finish APPINSTALLER_CLI_ERROR_UPDATE_NOT_APPLICABLE).
Local Abbreviation Ensure :=
  (EnsureUpdateVersionApplicable APPINSTALLER_CLI_ERROR_UPDATE_NOT_APPLICABLE).

Lemma SelectScan_eq context package installed :
  dPackage (Data_ context) = Some package ->
  dInstalledPackageVersion (Data_ context) = Some installed ->
  SelectScan context = Returned (scanOf newManifestComparator context package installed) [].
Proof.
  intros Hp Hi. unfold SelectLatestApplicableUpdate_scan. rewrite Hp, Hi. reflexivity.
Qed.

Lemma Select_eq report context package installed :
  dPackage (Data_ context) = Some package ->
  dInstalledPackageVersion (Data_ context) = Some installed ->
  Select report context = SelectFinish report (scanOf newManifestComparator context package installed).
Proof.
  intros Hp Hi. unfold SelectLatestApplicableUpdate.
  rewrite (SelectScan_eq _ _ _ Hp Hi). apply bind_Returned_nil.
Qed.

(** C7. When the scan reaches, past keys it skipped, a key that passes the
    predicate and has a chosen installer, the step returns a context that
    differs from the one it got in three slots only: Manifest holds the
    key's manifest with the installer's locale applied, PackageVersion the
    resolved version, Installer the chosen installer.  The terminal slot is
    as before, nothing is written, and the keys after the chosen one are
    neither tested nor resolved. *)
Theorem SelectLatestApplicableUpdate_success
  report context package installed skipped key later chosen flags :
  dPackage (Data_ context) = Some package ->
  dInstalledPackageVersion (Data_ context) = Some installed ->
  let installedVersion := Version_of (Repository.GetProperty installed Repository.Version) in
  let cmp := newManifestComparator context (Repository.GetMetadata installed) in
  Repository.GetAvailableVersionKeys package = skipped ++ key :: later ->
  forallb (skippedKey package cmp installedVersion) skipped = true ->
  applicableKey installedVersion key = true ->
  preferredFor package cmp key = (Some chosen, flags) ->
  let packageVersion := Repository.GetAvailableVersion package key in
  let manifest :=
    Manifest.ApplyLocale (Repository.GetManifest packageVersion) (Manifest.Locale chosen) in
  exists context' r,
    Select report context = Returned context' [] /\
    dManifest (Data_ context') = Some manifest /\
    Manifest.CurrentLocalization manifest = Manifest.Locale chosen /\
    dPackageVersion (Data_ context') = Some packageVersion /\
    dInstaller (Data_ context') = Some (Some chosen) /\
    dPackage (Data_ context') = dPackage (Data_ context) /\
    dInstalledPackageVersion (Data_ context') = dInstalledPackageVersion (Data_ context) /\
    dSearchResult (Data_ context') = dSearchResult (Data_ context) /\
    dPackagesToInstall (Data_ context') = dPackagesToInstall (Data_ context) /\
    TerminationHR context' = TerminationHR context /\
    SelectScan context = Returned r [] /\
    checkedKeys (scanTrace r) = skipped ++ [key] /\
    resolvedKeys (scanTrace r) = skipped ++ [key].
Proof.
  intros Hp Hi iv cmp Hkeys Hs Ha Hc pv manifest.
  eexists. exists (scanOf newManifestComparator context package installed).
  rewrite (Select_eq report _ _ _ Hp Hi), (SelectScan_eq _ _ _ Hp Hi).
  unfold scanOf. rewrite Hkeys.
  rewrite (scan_skipped_prefix _ _ _ _ _ _ _ Hs).
  rewrite (scan_selected _ _ _ _ _ _ _ _ _ Ha Hc).
  unfold SelectLatestApplicableUpdate_finish. simpl.
  rewrite checkedKeys_app, resolvedKeys_app, checkedKeys_skipEvents,
    resolvedKeys_skipEvents.
  repeat split; reflexivity.
Qed.

(** C8. On a running context that holds its two inputs the step returns, and
    the context it returns is terminated with the not-applicable code exactly
    when the key list ends without a selection; otherwise its terminal slot
    is still empty.  An empty key list, a first key that fails the predicate
    and a list whose keys are all skipped each end without a selection.  On
    any context, the slot after the step holds what it held before or the
    not-applicable code. *)
Theorem SelectLatestApplicableUpdate_terminates_iff
  report context package installed :
  dPackage (Data_ context) = Some package ->
  dInstalledPackageVersion (Data_ context) = Some installed ->
  TerminationHR context = None ->
  let installedVersion := Version_of (Repository.GetProperty installed Repository.Version) in
  let cmp := newManifestComparator context (Repository.GetMetadata installed) in
  let keys := Repository.GetAvailableVersionKeys package in
  (exists context' w,
     Select report context = Returned context' w /\
     (TerminationHR context' = Some APPINSTALLER_CLI_ERROR_UPDATE_NOT_APPLICABLE <->
      endsWithoutSelection package cmp installedVersion keys) /\
     (TerminationHR context' = None \/
      TerminationHR context' = Some APPINSTALLER_CLI_ERROR_UPDATE_NOT_APPLICABLE)) /\
  (keys = [] -> endsWithoutSelection package cmp installedVersion keys) /\
  (forall key rest, keys = key :: rest -> applicableKey installedVersion key = false ->
     endsWithoutSelection package cmp installedVersion keys) /\
  (forallb (skippedKey package cmp installedVersion) keys = true ->
     endsWithoutSelection package cmp installedVersion keys) /\
  (forall anyContext context' w,
     Select report anyContext = Returned context' w ->
     TerminationHR context' = TerminationHR anyContext \/
     TerminationHR context' = Some APPINSTALLER_CLI_ERROR_UPDATE_NOT_APPLICABLE).
Proof.
  intros Hp Hi Ht iv cmp keys. split; [|split; [|split; [|split]]].
  - rewrite (Select_eq report _ _ _ Hp Hi). unfold scanOf.
    pose proof (scan_not_found_iff package cmp iv keys false context) as Hiff.
    pose proof (scan_termination package cmp iv keys false context) as Hterm.
    fold iv cmp keys.
    remember (scanVersionKeys package cmp iv keys false context) as r eqn:Hr.
    unfold SelectLatestApplicableUpdate_finish.
    destruct (updateFound r) eqn:Hf; simpl.
    + exists (scanContext r), []. split; [reflexivity|]. rewrite Hterm, Ht. split.
      * split; [discriminate|]. intros H. apply Hiff in H. discriminate.
      * now left.
    + destruct report; [destruct (installedTypeInapplicable r)|]; simpl;
        (eexists; eexists; split; [reflexivity|]; simpl; split;
         [split; [intros _; now apply Hiff | reflexivity] | now right]).
  - apply endsWithoutSelection_cases.
  - apply endsWithoutSelection_cases.
  - apply endsWithoutSelection_cases.
  - intros c c' w. unfold SelectLatestApplicableUpdate, SelectLatestApplicableUpdate_scan.
    destruct (dPackage (Data_ c)) as [p|]; simpl; [|discriminate].
    destruct (dInstalledPackageVersion (Data_ c)) as [i|]; simpl; [|discriminate].
    unfold SelectLatestApplicableUpdate_finish.
    pose proof (scan_termination p
                  (newManifestComparator c (Repository.GetMetadata i))
                  (Version_of (Repository.GetProperty i Repository.Version))
                  (Repository.GetAvailableVersionKeys p) false c) as Hterm.
    remember (scanVersionKeys p
                (newManifestComparator c (Repository.GetMetadata i))
                (Version_of (Repository.GetProperty i Repository.Version))
                (Repository.GetAvailableVersionKeys p) false c) as r eqn:Hr.
    destruct (updateFound r); simpl.
    + intros H. injection H as <- _. now left.
    + destruct report; [destruct (installedTypeInapplicable r)|]; simpl;
        intros H; injection H as <- _; now right.
Qed.

(** C5, amended.  When the key list ends without a selection and reporting
    is enabled, the step writes one line and terminates the context with the
    not-applicable code.  The line is the different-install-technology
    message exactly when some skipped version has some installer whose flag
    set is the installed type alone; otherwise it is the generic
    not-applicable message. *)
Theorem SelectLatestApplicableUpdate_not_found_report
  context package installed skipped rest :
  dPackage (Data_ context) = Some package ->
  dInstalledPackageVersion (Data_ context) = Some installed ->
  let installedVersion := Version_of (Repository.GetProperty installed Repository.Version) in
  let cmp := newManifestComparator context (Repository.GetMetadata installed) in
  Repository.GetAvailableVersionKeys package = skipped ++ rest ->
  forallb (skippedKey package cmp installedVersion) skipped = true ->
  match rest with
  | [] => True
  | key :: _ => applicableKey installedVersion key = false
  end ->
  exists msg,
    Select true context =
      Returned (Terminate context APPINSTALLER_CLI_ERROR_UPDATE_NOT_APPLICABLE) [msg] /\
    (msg = Resource.UpgradeDifferentInstallTechnologyInNewerVersions \/
     msg = Resource.UpdateNotApplicable) /\
    (msg = Resource.UpgradeDifferentInstallTechnologyInNewerVersions <->
     exists key,
       In key skipped /\
       In InapplicabilityFlags.InstalledType (snd (preferredFor package cmp key))).
Proof.
  intros Hp Hi iv cmp Hkeys Hs Hrest.
  rewrite (Select_eq true _ _ _ Hp Hi). unfold scanOf. fold iv cmp.
  rewrite Hkeys, (scan_skipped_prefix _ _ _ _ _ _ _ Hs).
  assert (Hscan : scanVersionKeys package cmp iv rest
                    (existsb (someInstalledTypeOnly package cmp) skipped || false) context =
                  {| updateFound := false;
                     installedTypeInapplicable :=
                       existsb (someInstalledTypeOnly package cmp) skipped || false;
                     scanContext := context;
                     scanTrace := match rest with
                                  | [] => []
                                  | key :: _ => [VersionChecked key]
                                  end |}).
  { destruct rest as [|key rest']; [reflexivity|].
    now apply scan_inapplicable. }
  rewrite Hscan. unfold SelectLatestApplicableUpdate_finish. simpl.
  rewrite orb_false_r.
  assert (Hex : existsb (someInstalledTypeOnly package cmp) skipped = true <->
                exists key,
                  In key skipped /\
                  In InapplicabilityFlags.InstalledType (snd (preferredFor package cmp key))).
  { rewrite existsb_exists. unfold someInstalledTypeOnly.
    split; intros (key & Hin & H); exists key; (split; [exact Hin|]);
      now apply foundInstalledType_iff. }
  destruct (existsb (someInstalledTypeOnly package cmp) skipped); simpl.
  - eexists. split; [reflexivity|]. split; [now left|]. split; [intros _|reflexivity].
    now apply Hex.
  - eexists. split; [reflexivity|]. split; [now right|]. split; [discriminate|].
    intros H. apply Hex in H. discriminate.
Qed.

(** C9. On a context that holds the installed version and a manifest, the
    step evaluates [IsUpdateVersionApplicable] on the installed version and
    the manifest's version.  When it is true the step returns the context as
    it got it and writes nothing; when it is false the step terminates the
    context with the not-applicable code.  The test is the one the selection
    loop makes: started on a key that carries the manifest's version, the
    loop stops at that key without resolving it exactly when the test fails. *)
Theorem EnsureUpdateVersionApplicable_spec context installed manifest :
  dInstalledPackageVersion (Data_ context) = Some installed ->
  dManifest (Data_ context) = Some manifest ->
  let installedVersion := Version_of (Repository.GetProperty installed Repository.Version) in
  let applicable :=
    IsUpdateVersionApplicable installedVersion (Version_of (Manifest.Version manifest)) in
  Ensure context =
    (if applicable then Returned context []
     else Returned (Terminate context APPINSTALLER_CLI_ERROR_UPDATE_NOT_APPLICABLE)
            [Resource.UpdateNotApplicable]) /\
  (TerminationHR context = None ->
   exists context' w,
     Ensure context = Returned context' w /\
     (TerminationHR context' = Some APPINSTALLER_CLI_ERROR_UPDATE_NOT_APPLICABLE <->
      applicable = false)) /\
  (forall package cmp key rest iti scanned,
     Repository.KeyVersion key = Manifest.Version manifest ->
     (applicable = false <->
      scanTrace (scanVersionKeys package cmp installedVersion (key :: rest) iti scanned)
      = [VersionChecked key])).
Proof.
  intros Hi Hm iv applicable.
  assert (He : Ensure context =
               (if applicable then Returned context []
                else Returned (Terminate context APPINSTALLER_CLI_ERROR_UPDATE_NOT_APPLICABLE)
                       [Resource.UpdateNotApplicable])).
  { unfold EnsureUpdateVersionApplicable. rewrite Hi, Hm. simpl.
    fold iv. fold applicable. destruct applicable; reflexivity. }
  split; [exact He|split].
  - intros Ht. rewrite He. destruct applicable; eexists; eexists;
      (split; [reflexivity|]); simpl.
    + rewrite Ht. split; discriminate.
    + split; reflexivity.
  - intros package cmp key rest iti scanned Hk. subst applicable. rewrite <- Hk.
    simpl.
    destruct (IsUpdateVersionApplicable iv (Version_of (Repository.KeyVersion key))).
    + split; [discriminate|].
      destruct (GetPreferredInstaller cmp _) as [[chosen|] flags]; simpl; discriminate.
    + split; reflexivity.
Qed.

(** C10. With reporting disabled the step returns what it returns with
    reporting enabled (the same context, so the same selection, the same data
    and the same terminal slot, or the same fatal failure) and writes
    nothing.  So what a clone of the batch writes is what the two tasks
    before the selection step wrote. *)
Theorem SelectLatestApplicableUpdate_reporting_disabled :
  (forall context, Select false context = silent (Select true context)) /\
  (forall context, written (Select false context) = []) /\
  (forall GetInstalledPackageVersion ReportExecutionStage context m,
     runUpdateContext APPINSTALLER_CLI_ERROR_UPDATE_NOT_APPLICABLE newManifestComparator
       GetInstalledPackageVersion ReportExecutionStage context m =
     bind (ret (Add_Package (Clone context) (Repository.Package m))
             << GetInstalledPackageVersion
             << ReportExecutionStage Discovery)
          (fun c => silent (pipe c (Select true)))).
Proof.
  assert (H : forall context, Select false context = silent (Select true context)).
  { intros context.
    unfold SelectLatestApplicableUpdate, SelectLatestApplicableUpdate_scan.
    destruct (dPackage (Data_ context)) as [p|]; simpl; [|reflexivity].
    destruct (dInstalledPackageVersion (Data_ context)) as [i|]; simpl; [|reflexivity].
    unfold SelectLatestApplicableUpdate_finish.
    destruct (updateFound _); simpl; [reflexivity|].
    destruct (installedTypeInapplicable _); reflexivity. }
  split; [exact H|split].
  - intros context. rewrite H. destruct (Select true context); reflexivity.
  - intros G R context m. unfold runUpdateContext.
    assert (Hp : forall c, pipe c (Select false) = silent (pipe c (Select true))).
    { intros c. unfold pipe. destruct (IsTerminated c); [reflexivity|apply H]. }
    generalize (ret (Add_Package (Clone context) (Repository.Package m)) << G << R Discovery).
    intros o. destruct o as [c w|e]; simpl; [|reflexivity].
    rewrite Hp. reflexivity.
Qed.

End SelectionProperties.

(** C5, as stated, fails.  2.0 is installed.  In the first package the one
    available version, 3.0, passes the predicate and its two installers are
    both rejected, one for the installed type alone and one for the machine
    architecture alone.  In the second package 4.0 and 3.0 both pass and are
    both skipped, 4.0 for the machine architecture alone and 3.0 for the
    installed type alone.  In neither is every rejection for the installed
    type, yet the step reports the different-install-technology message. *)
Lemma report_when_not_every_rejection_is_installed_type :
  let cmp := Sample.sampleComparator Sample.emptyContext Sample.installedFromMsi in
  (let keys := Repository.GetAvailableVersionKeys Sample.pkgMixedReasons in
   map Repository.KeyVersion keys = ["3.0"] /\
   forallb (skippedKey Sample.pkgMixedReasons cmp (Version_of "2.0")) keys = true /\
   map (preferredFor Sample.pkgMixedReasons cmp) keys
     = [(None, [InapplicabilityFlags.InstalledType;
                InapplicabilityFlags.MachineArchitecture])] /\
   forallb (allInstalledTypeOnly Sample.pkgMixedReasons cmp) keys = false /\
   written (Sample.Select true (Sample.contextFor Sample.pkgMixedReasons))
     = [Resource.UpgradeDifferentInstallTechnologyInNewerVersions] /\
   SampleView.termination (Sample.Select true (Sample.contextFor Sample.pkgMixedReasons))
     = Some Sample.UPDATE_NOT_APPLICABLE) /\
  (let keys := Repository.GetAvailableVersionKeys Sample.pkgTwoSkipped in
   map Repository.KeyVersion keys = ["4.0"; "3.0"] /\
   forallb (skippedKey Sample.pkgTwoSkipped cmp (Version_of "2.0")) keys = true /\
   map (preferredFor Sample.pkgTwoSkipped cmp) keys
     = [(None, [InapplicabilityFlags.MachineArchitecture]);
        (None, [InapplicabilityFlags.InstalledType])] /\
   map (allInstalledTypeOnly Sample.pkgTwoSkipped cmp) keys = [false; true] /\
   written (Sample.Select true (Sample.contextFor Sample.pkgTwoSkipped))
     = [Resource.UpgradeDifferentInstallTechnologyInNewerVersions] /\
   SampleView.termination (Sample.Select true (Sample.contextFor Sample.pkgTwoSkipped))
     = Some Sample.UPDATE_NOT_APPLICABLE).
Proof.
  repeat split; vm_compute; reflexivity.
Qed.

(** C5, amended, on the same package. *)
Lemma SelectLatestApplicableUpdate_not_found_report_witness :
  exists msg,
    Sample.Select true (Sample.contextFor Sample.pkgMixedReasons) =
      Returned (Terminate (Sample.contextFor Sample.pkgMixedReasons)
                  Sample.UPDATE_NOT_APPLICABLE) [msg] /\
    (msg = Resource.UpgradeDifferentInstallTechnologyInNewerVersions \/
     msg = Resource.UpdateNotApplicable) /\
    (msg = Resource.UpgradeDifferentInstallTechnologyInNewerVersions <->
     exists key,
       In key [Sample.key "winget" "3.0"] /\
       In InapplicabilityFlags.InstalledType
          (snd (preferredFor Sample.pkgMixedReasons
                  (Sample.sampleComparator (Sample.contextFor Sample.pkgMixedReasons)
                     Sample.installedFromMsi)
                  key))).
Proof.
  apply (SelectLatestApplicableUpdate_not_found_report
           Sample.UPDATE_NOT_APPLICABLE Sample.sampleComparator
           (Sample.contextFor Sample.pkgMixedReasons) Sample.pkgMixedReasons
           (Sample.packageVersion "Contoso.Mixer" "installed" "2.0" []
              Sample.installedFromMsi)
           [Sample.key "winget" "3.0"] []).
  - reflexivity.
  - reflexivity.
  - reflexivity.
  - vm_compute. reflexivity.
  - exact I.
Defined.

(* ================================================================== *)
(** * Deduplication *)

Lemma dedupKey_eqb_eq (a b : string * string * string) :
  dedupKey_eqb a b = true <-> a = b.
Proof.
  destruct a as [[a1 a2] a3], b as [[b1 b2] b3]. simpl.
  rewrite !andb_true_iff, !String.eqb_eq. split.
  - intros [[-> ->] ->]. reflexivity.
  - intros H. injection H as -> -> ->. auto.
Qed.

Lemma sameUpdate_dedupKey (existing package : PackageToInstall) :
  sameUpdate existing package = dedupKey_eqb (dedupKey existing) (dedupKey package).
Proof. reflexivity. Qed.

Lemma isPresent_seen (l : list PackageToInstall) (p : PackageToInstall) :
  isPresent l p = existsb (fun k => dedupKey_eqb k (dedupKey p)) (map dedupKey l).
Proof.
  induction l as [|e l IH]; [reflexivity|].
  cbn [isPresent map existsb]. rewrite sameUpdate_dedupKey, IH.
  destruct (dedupKey_eqb (dedupKey e) (dedupKey p)); reflexivity.
Qed.

Lemma seen_true_iff (seen : list (string * string * string)) (k : string * string * string) :
  existsb (fun k' => dedupKey_eqb k' k) seen = true <-> In k seen.
Proof.
  rewrite existsb_exists. split.
  - intros (x & Hin & Hx). apply dedupKey_eqb_eq in Hx. now subst x.
  - intros Hin. exists k. split; [exact Hin|]. now apply dedupKey_eqb_eq.
Qed.

Lemma isPresent_true_iff (l : list PackageToInstall) (p : PackageToInstall) :
  isPresent l p = true <-> exists e, In e l /\ dedupKey e = dedupKey p.
Proof.
  rewrite isPresent_seen, seen_true_iff, in_map_iff. split.
  - intros (e & He & Hin). exists e. auto.
  - intros (e & Hin & He). exists e. auto.
Qed.

Lemma Add_incl (l : list PackageToInstall) (p q : PackageToInstall) :
  In q l -> In q (AddToPackagesToInstallIfNotPresent l p).
Proof.
  unfold AddToPackagesToInstallIfNotPresent. intros H.
  destruct (isPresent l p); [exact H|]. apply in_or_app. now left.
Qed.

Lemma Add_has_key (l : list PackageToInstall) (p : PackageToInstall) :
  exists q, In q (AddToPackagesToInstallIfNotPresent l p) /\ dedupKey q = dedupKey p.
Proof.
  unfold AddToPackagesToInstallIfNotPresent.
  destruct (isPresent l p) eqn:H.
  - now apply isPresent_true_iff.
  - exists p. split; [|reflexivity]. apply in_or_app. right. now left.
Qed.

Lemma fold_Add_firstOccurrences (ps : list PackageToInstall) :
  forall acc,
    fold_left AddToPackagesToInstallIfNotPresent ps acc =
    acc ++ firstOccurrences (map dedupKey acc) ps.
Proof.
  induction ps as [|p ps IH]; intros acc; simpl.
  - now rewrite app_nil_r.
  - rewrite IH. unfold AddToPackagesToInstallIfNotPresent.
    rewrite isPresent_seen.
    destruct (existsb _ (map dedupKey acc)); [reflexivity|].
    rewrite map_app, <- app_assoc. reflexivity.
Qed.

Lemma firstOccurrences_NoDup (ps : list PackageToInstall) :
  forall seen,
    NoDup seen -> NoDup (seen ++ map dedupKey (firstOccurrences seen ps)).
Proof.
  induction ps as [|p ps IH]; intros seen Hnd; simpl.
  - now rewrite app_nil_r.
  - destruct (existsb _ seen) eqn:Hseen.
    + now apply IH.
    + simpl.
      assert (Hnin : ~ In (dedupKey p) seen).
      { intros Hin. apply seen_true_iff in Hin. congruence. }
      specialize (IH (seen ++ [dedupKey p])).
      rewrite <- app_assoc in IH. apply IH.
      apply NoDup_app; [exact Hnd|repeat constructor; simpl; tauto|].
      intros x Hx [<-|[]]. contradiction.
Qed.

Lemma dedupKey_eqb_refl (a : string * string * string) : dedupKey_eqb a a = true.
Proof. now apply dedupKey_eqb_eq. Qed.

Lemma dedupKey_eqb_neq (a b : string * string * string) :
  a <> b -> dedupKey_eqb a b = false.
Proof.
  intros H. destruct (dedupKey_eqb a b) eqn:E; [|reflexivity].
  apply dedupKey_eqb_eq in E. contradiction.
Qed.

Lemma terminatedWith_true_iff (c : Context) (hr : HRESULT) :
  terminatedWith c hr = true <-> TerminationHR c = Some hr.
Proof.
  unfold terminatedWith. destruct (TerminationHR c) as [h|].
  - rewrite Z.eqb_eq. split; [now intros ->|]. intros H. now injection H.
  - split; discriminate.
Qed.

Lemma updateOf_any_id (c : Context) (p0 : PackageToInstall) (id0 id : N) :
  updateOf id0 c = Some p0 ->
  exists p, updateOf id c = Some p /\ dedupKey p = dedupKey p0.
Proof.
  unfold updateOf.
  destruct (dPackageVersion (Data_ c)); [|discriminate].
  destruct (dInstalledPackageVersion (Data_ c)); [|discriminate].
  destruct (dManifest (Data_ c)); [|discriminate].
  destruct (dInstaller (Data_ c)) as [[chosen|]|]; try discriminate.
  intros H. injection H as <-. eexists. split; reflexivity.
Qed.

(* ================================================================== *)
(** * The batch *)

Section BatchProperties.

Variable APPINSTALLER_CLI_ERROR_UPDATE_NOT_APPLICABLE : HRESULT.
Variable APPINSTALLER_CLI_ERROR_UPDATE_ALL_HAS_FAILURE : HRESULT.
Variable newManifestComparator : Context -> Repository.Metadata -> ManifestComparator.
Variable GetInstalledPackageVersion : WorkflowTask.
Variable ReportExecutionStage : ExecutionStage -> WorkflowTask.
Variable GetCurrentSubExecutionId : nat -> N.

Local Abbreviation NotApplicable := APPINSTALLER_CLI_ERROR_UPDATE_NOT_APPLICABLE.
Local Abbreviation run :=
  (runUpdateContext NotApplicable newManifestComparator
     GetInstalledPackageVersion ReportExecutionStage).
Local Abbreviation collect := (collectUpdate NotApplicable GetCurrentSubExecutionId).
Local Abbreviation round :=
  (UpdateAllApplicable_round NotApplicable newManifestComparator
     GetInstalledPackageVersion ReportExecutionStage GetCurrentSubExecutionId).
Local Abbreviation loop :=
  (UpdateAllApplicable_loop NotApplicable newManifestComparator
     GetInstalledPackageVersion ReportExecutionStage GetCurrentSubExecutionId).
Local Abbreviation isNotApplicable :=
  (cloneNotApplicable NotApplicable newManifestComparator
     GetInstalledPackageVersion ReportExecutionStage).
Local Abbreviation isCollectable :=
  (cloneCollectable NotApplicable newManifestComparator
     GetInstalledPackageVersion ReportExecutionStage).
Local Abbreviation output :=
  (cloneOutput NotApplicable newManifestComparator
     GetInstalledPackageVersion ReportExecutionStage).

Lemma collect_not_applicable st c :
  terminatedWith c NotApplicable = true ->
  collect st c =
  ret {| packagesToInstall := packagesToInstall st;
         updateAllFoundUpdate := updateAllFoundUpdate st;
         matchIndex := S (matchIndex st) |}.
Proof. unfold collectUpdate. now intros ->. Qed.

Lemma collect_update st c p :
  terminatedWith c NotApplicable = false ->
  updateOf (GetCurrentSubExecutionId (matchIndex st)) c = Some p ->
  collect st c =
  ret {| packagesToInstall := AddToPackagesToInstallIfNotPresent (packagesToInstall st) p;
         updateAllFoundUpdate := true;
         matchIndex := S (matchIndex st) |}.
Proof.
  unfold collectUpdate, updateOf. intros ->.
  destruct (dPackageVersion (Data_ c)); [|discriminate].
  destruct (dInstalledPackageVersion (Data_ c)); [|discriminate].
  destruct (dManifest (Data_ c)); [|discriminate].
  destruct (dInstaller (Data_ c)) as [[chosen|]|]; try discriminate.
  intros H. injection H as <-. reflexivity.
Qed.

Lemma round_of_clone context st m c w :
  run context m = Returned c w ->
  round context st m = bind (Returned c w) (collect st).
Proof. unfold UpdateAllApplicable_round. now intros ->. Qed.

Lemma round_not_applicable context st m c w :
  run context m = Returned c w ->
  terminatedWith c NotApplicable = true ->
  round context st m =
  Returned {| packagesToInstall := packagesToInstall st;
              updateAllFoundUpdate := updateAllFoundUpdate st;
              matchIndex := S (matchIndex st) |} w.
Proof.
  intros Hrun Ht. rewrite (round_of_clone _ _ _ _ _ Hrun). unfold bind.
  rewrite (collect_not_applicable _ _ Ht). unfold ret. now rewrite app_nil_r.
Qed.

Lemma round_update context st m c w p :
  run context m = Returned c w ->
  terminatedWith c NotApplicable = false ->
  updateOf (GetCurrentSubExecutionId (matchIndex st)) c = Some p ->
  round context st m =
  Returned {| packagesToInstall := AddToPackagesToInstallIfNotPresent (packagesToInstall st) p;
              updateAllFoundUpdate := true;
              matchIndex := S (matchIndex st) |} w.
Proof.
  intros Hrun Ht Hu. rewrite (round_of_clone _ _ _ _ _ Hrun). unfold bind.
  rewrite (collect_update _ _ _ Ht Hu). unfold ret. now rewrite app_nil_r.
Qed.

Lemma loop_cons context m rest st st1 w :
  round context st m = Returned st1 w ->
  loop context (m :: rest) st = bind (Returned st1 w) (loop context rest).
Proof. simpl. now intros ->. Qed.

(** The loop on matches whose clones are all collectable. *)
Lemma loop_collects context matches :
  forall st,
    forallb (isCollectable context) matches = true ->
    exists st',
      loop context matches st = Returned st' (flat_map (output context) matches) /\
      matchIndex st' = matchIndex st + List.length matches /\
      updateAllFoundUpdate st' =
        updateAllFoundUpdate st || existsb (fun m => negb (isNotApplicable context m)) matches /\
      (forall q, In q (packagesToInstall st) -> In q (packagesToInstall st')) /\
      (forall m, In m matches -> isNotApplicable context m = false ->
         exists c w p q,
           run context m = Returned c w /\ updateOf 0%N c = Some p /\
           In q (packagesToInstall st') /\ dedupKey q = dedupKey p) /\
      (forallb (isNotApplicable context) matches = true ->
         packagesToInstall st' = packagesToInstall st).
Proof.
  induction matches as [|m rest IH]; intros st Hall.
  - exists st. simpl. rewrite orb_false_r, Nat.add_0_r.
    repeat split; auto. intros m [].
  - simpl in Hall. apply andb_true_iff in Hall. destruct Hall as [Hm Hrest].
    unfold cloneCollectable in Hm.
    destruct (run context m) as [c w|e] eqn:Hrun; [|discriminate].
    assert (Hout : output context m = w) by (unfold cloneOutput; now rewrite Hrun).
    assert (Hna : isNotApplicable context m = terminatedWith c NotApplicable)
      by (unfold cloneNotApplicable; now rewrite Hrun).
    destruct (terminatedWith c NotApplicable) eqn:Ht.
    + pose proof (round_not_applicable context st m c w Hrun Ht) as Hround.
      destruct (IH {| packagesToInstall := packagesToInstall st;
                      updateAllFoundUpdate := updateAllFoundUpdate st;
                      matchIndex := S (matchIndex st) |} Hrest)
        as (st' & Hloop & Hidx & Hfound & Hincl & Hkeys & Hsame).
      exists st'. rewrite (loop_cons _ _ _ _ _ _ Hround). unfold bind. rewrite Hloop.
      simpl in *. rewrite Hout, Hna. simpl.
      split; [reflexivity|]. split; [lia|]. split; [exact Hfound|].
      split; [exact Hincl|]. split.
      * intros m' [<-|Hin] Hm'; [congruence|]. now apply Hkeys.
      * intros H. now apply Hsame.
    + simpl in Hm. destruct (updateOf 0%N c) as [p0|] eqn:Hp0; [|discriminate].
      destruct (updateOf_any_id c p0 0%N (GetCurrentSubExecutionId (matchIndex st)) Hp0)
        as (p & Hp & Hkey).
      pose proof (round_update context st m c w p Hrun Ht Hp) as Hround.
      destruct (IH {| packagesToInstall :=
                        AddToPackagesToInstallIfNotPresent (packagesToInstall st) p;
                      updateAllFoundUpdate := true;
                      matchIndex := S (matchIndex st) |} Hrest)
        as (st' & Hloop & Hidx & Hfound & Hincl & Hkeys & Hsame).
      exists st'. rewrite (loop_cons _ _ _ _ _ _ Hround). unfold bind. rewrite Hloop.
      simpl in *. rewrite Hout, Hna. simpl.
      split; [reflexivity|]. split; [lia|]. split; [now rewrite orb_true_r|].
      split; [intros q Hq; apply Hincl; now apply Add_incl|]. split.
      * intros m' [<-|Hin] Hm'; [|now apply Hkeys].
        destruct (Add_has_key (packagesToInstall st) p) as (q & Hq & Hqk).
        exists c, w, p0, q. repeat split; auto. congruence.
      * discriminate.
Qed.

Lemma notApplicable_collectable context m :
  isNotApplicable context m = true -> isCollectable context m = true.
Proof.
  unfold cloneNotApplicable, cloneCollectable.
  destruct (run context m) as [c w|e]; [|discriminate]. now intros ->.
Qed.

Lemma all_notApplicable_collectable context matches :
  forallb (isNotApplicable context) matches = true ->
  forallb (isCollectable context) matches = true.
Proof.
  rewrite !forallb_forall. intros H m Hin. apply notApplicable_collectable. now apply H.
Qed.

Lemma none_found_iff context matches :
  existsb (fun m => negb (isNotApplicable context m)) matches = false <->
  forallb (isNotApplicable context) matches = true.
Proof.
  induction matches as [|m rest IH]; simpl; [tauto|].
  rewrite orb_false_iff, andb_true_iff, IH, negb_false_iff. tauto.
Qed.

(** C4. A record is appended to the list exactly when no entry of the list
    has its package id, version and source identifier; otherwise the list is
    left as it is.  So the list built from a sequence of records keeps, in
    order, the first record of each key and has no key twice; of three
    records of which two share a key and one does not, two remain.  A round
    of the batch whose clone holds an update adds its record through this
    function.  In the sample, three matches of which the first and the third
    resolve to the same update give a batch of two. *)
Theorem AddToPackagesToInstallIfNotPresent_first_wins :
  (forall l p,
      (exists e, In e l /\ dedupKey e = dedupKey p) ->
      AddToPackagesToInstallIfNotPresent l p = l) /\
  (forall l p,
      (forall e, In e l -> dedupKey e <> dedupKey p) ->
      AddToPackagesToInstallIfNotPresent l p = l ++ [p]) /\
  (forall ps,
      fold_left AddToPackagesToInstallIfNotPresent ps [] = firstOccurrences [] ps /\
      NoDup (map dedupKey (fold_left AddToPackagesToInstallIfNotPresent ps []))) /\
  (forall p1 p2 p3,
      (dedupKey p1 = dedupKey p2 -> dedupKey p3 <> dedupKey p1 ->
       fold_left AddToPackagesToInstallIfNotPresent [p1; p2; p3] [] = [p1; p3]) /\
      (dedupKey p1 = dedupKey p3 -> dedupKey p2 <> dedupKey p1 ->
       fold_left AddToPackagesToInstallIfNotPresent [p1; p2; p3] [] = [p1; p2]) /\
      (dedupKey p2 = dedupKey p3 -> dedupKey p2 <> dedupKey p1 ->
       fold_left AddToPackagesToInstallIfNotPresent [p1; p2; p3] [] = [p1; p2])) /\
  (forall st c p,
      TerminationHR c <> Some NotApplicable ->
      updateOf (GetCurrentSubExecutionId (matchIndex st)) c = Some p ->
      collect st c =
      Returned
        {| packagesToInstall := AddToPackagesToInstallIfNotPresent (packagesToInstall st) p;
           updateAllFoundUpdate := true;
           matchIndex := S (matchIndex st) |} []) /\
  SampleView.batch
    (Sample.UpdateAll
       (Sample.searchContext [Sample.pkgSkipNewest; Sample.pkgPlain; Sample.pkgEditorAgain]))
  = Some [("Contoso.Editor", "2.5", "winget", 1%N); ("Contoso.Plain", "2.0", "winget", 2%N)].
Proof.
  split; [|split; [|split; [|split; [|split]]]].
  - intros l p H. unfold AddToPackagesToInstallIfNotPresent.
    apply isPresent_true_iff in H. now rewrite H.
  - intros l p H. unfold AddToPackagesToInstallIfNotPresent.
    destruct (isPresent l p) eqn:E; [|reflexivity].
    apply isPresent_true_iff in E. destruct E as (e & Hin & He).
    exfalso. exact (H e Hin He).
  - intros ps. rewrite fold_Add_firstOccurrences. simpl. split; [reflexivity|].
    apply (firstOccurrences_NoDup ps []). constructor.
  - intros p1 p2 p3. rewrite fold_Add_firstOccurrences.
    cbn [map app firstOccurrences existsb].
    split; [|split].
    + intros H12 H31. rewrite <- H12, dedupKey_eqb_refl.
      rewrite (dedupKey_eqb_neq (dedupKey p1) (dedupKey p3)) by congruence.
      reflexivity.
    + intros H13 H21. rewrite (dedupKey_eqb_neq (dedupKey p1) (dedupKey p2)) by congruence.
      cbn [orb]. rewrite <- H13, dedupKey_eqb_refl. reflexivity.
    + intros H23 H21. rewrite (dedupKey_eqb_neq (dedupKey p1) (dedupKey p2)) by congruence.
      cbn [orb]. rewrite <- H23, dedupKey_eqb_refl.
      rewrite (dedupKey_eqb_neq (dedupKey p1) (dedupKey p2)) by congruence.
      reflexivity.
  - intros st c p Ht Hu. apply collect_update; [|exact Hu].
    destruct (terminatedWith c NotApplicable) eqn:E; [|reflexivity].
    apply terminatedWith_true_iff in E. contradiction.
  - vm_compute. reflexivity.
Qed.

(** X10. A round whose clone is terminated with the not-applicable code
    leaves the list and the flag as they are.  A round whose clone is not,
    and holds the four items the round reads from it, adds their record and
    sets the flag.  On matches whose clones all end in one of these two ways
    the loop runs one round for every match and returns: what the clones
    wrote is passed on in order, every clone that is not terminated with the
    not-applicable code has an entry with its key in the list, and matches
    whose clones are all not applicable leave the list as it was. *)
Theorem UpdateAllApplicable_loop_best_effort context :
  (forall st m c w,
      run context m = Returned c w ->
      TerminationHR c = Some NotApplicable ->
      round context st m =
      Returned {| packagesToInstall := packagesToInstall st;
                  updateAllFoundUpdate := updateAllFoundUpdate st;
                  matchIndex := S (matchIndex st) |} w) /\
  (forall st m c w p,
      run context m = Returned c w ->
      TerminationHR c <> Some NotApplicable ->
      updateOf (GetCurrentSubExecutionId (matchIndex st)) c = Some p ->
      round context st m =
      Returned
        {| packagesToInstall := AddToPackagesToInstallIfNotPresent (packagesToInstall st) p;
           updateAllFoundUpdate := true;
           matchIndex := S (matchIndex st) |} w) /\
  (forall matches st,
      forallb (isCollectable context) matches = true ->
      exists st',
        loop context matches st = Returned st' (flat_map (output context) matches) /\
        matchIndex st' = matchIndex st + List.length matches /\
        updateAllFoundUpdate st' =
          updateAllFoundUpdate st ||
          existsb (fun m => negb (isNotApplicable context m)) matches /\
        (forall q, In q (packagesToInstall st) -> In q (packagesToInstall st')) /\
        (forall m, In m matches -> isNotApplicable context m = false ->
           exists c w p q,
             run context m = Returned c w /\ updateOf 0%N c = Some p /\
             In q (packagesToInstall st') /\ dedupKey q = dedupKey p) /\
        (forallb (isNotApplicable context) matches = true ->
           packagesToInstall st' = packagesToInstall st)).
Proof.
  split; [|split].
  - intros st m c w Hrun Ht. apply (round_not_applicable context st m c w Hrun).
    now apply terminatedWith_true_iff.
  - intros st m c w p Hrun Ht Hu. apply (round_update context st m c w p Hrun); [|exact Hu].
    destruct (terminatedWith c NotApplicable) eqn:E; [|reflexivity].
    apply terminatedWith_true_iff in E. contradiction.
  - intros matches st. apply loop_collects.
Qed.

(** X11. When the clone of every match ends terminated with the
    not-applicable code (so also when there is no match), the step returns
    the parent context as it got it, its terminal slot included, and appends
    the nothing-to-update line, once, to what the clones wrote; the batch
    installer, whatever it is, has no part in the result.  On matches whose
    clones are collectable the loop leaves its flag unset in exactly this
    case. *)
Theorem UpdateAllApplicable_nothing_to_update context searchResult InstallMultiplePackages :
  dSearchResult (Data_ context) = Some searchResult ->
  let matches := Repository.Matches searchResult in
  forallb (isNotApplicable context) matches = true ->
  let result :=
    UpdateAllApplicable NotApplicable APPINSTALLER_CLI_ERROR_UPDATE_ALL_HAS_FAILURE
      newManifestComparator GetInstalledPackageVersion ReportExecutionStage
      InstallMultiplePackages GetCurrentSubExecutionId context in
  result =
    Returned context (flat_map (output context) matches ++ [Resource.UpdateNotApplicable]) /\
  List.length (filter (Resource.eqb Resource.UpdateNotApplicable) (written result)) =
    List.length (filter (Resource.eqb Resource.UpdateNotApplicable)
                   (flat_map (output context) matches)) + 1 /\
  (flat_map (output context) matches = [] ->
   result = Returned context [Resource.UpdateNotApplicable]) /\
  (forall others,
     forallb (isCollectable context) others = true ->
     exists st' w,
       loop context others initialBatch = Returned st' w /\
       (updateAllFoundUpdate st' = false <->
        forallb (isNotApplicable context) others = true)).
Proof.
  intros Hsr matches Hall result.
  assert (Hres : result =
                 Returned context
                   (flat_map (output context) matches ++ [Resource.UpdateNotApplicable])).
  { subst result. unfold UpdateAllApplicable. rewrite Hsr. simpl Get.
    rewrite bind_ret_l. fold matches.
    destruct (loop_collects context matches initialBatch
                (all_notApplicable_collectable _ _ Hall))
      as (st' & Hloop & _ & Hfound & _ & _ & _).
    rewrite Hloop. simpl in Hfound.
    rewrite (proj2 (none_found_iff context matches) Hall) in Hfound.
    unfold bind at 1. rewrite Hfound. reflexivity. }
  split; [exact Hres|split; [|split]].
  - rewrite Hres. simpl. rewrite filter_app, length_app. reflexivity.
  - intros Hsilent. rewrite Hres, Hsilent. reflexivity.
  - intros others Hc.
    destruct (loop_collects context others initialBatch Hc)
      as (st' & Hloop & _ & Hfound & _ & _ & _).
    exists st', (flat_map (output context) others). split; [exact Hloop|].
    rewrite Hfound. simpl. apply none_found_iff.
Qed.

End BatchProperties.

(* ================================================================== *)
(** * The statements on the sample catalog *)

(** C3. The code on a batch of two matches.  The clone of the first is
    terminated by the installed-package store with a code other than
    not-applicable, before the selection step ran; the clone of the second
    would select 2.0.  The round of the first match is not skipped: it goes
    on to read the PackageVersion of its clone, which is not there.  The loop
    and the step end in a fatal failure and the second match is never run,
    where the round of a clone terminated with the not-applicable code goes
    on to the next match. *)
Lemma failed_clone_ends_the_batch :
  let context := Sample.searchContext [Sample.pkgNotInstalled; Sample.pkgPlain] in
  (exists c w,
     Sample.runClone context Sample.pkgNotInstalled = Returned c w /\
     TerminationHR c = Some Sample.NO_APPLICATIONS_FOUND /\
     Sample.NO_APPLICATIONS_FOUND <> Sample.UPDATE_NOT_APPLICABLE) /\
  SampleView.selectedVersion (Sample.runClone context Sample.pkgPlain) = Some "2.0" /\
  SampleView.termination (Sample.runClone context Sample.pkgPlain) = None /\
  Sample.UpdateAllLoop context [Sample.pkgNotInstalled; Sample.pkgPlain]
    = Thrown (DataNotFound Data.PackageVersion) /\
  Sample.UpdateAll context = Thrown (DataNotFound Data.PackageVersion).
Proof.
  split; [|repeat split; vm_compute; reflexivity].
  eexists. eexists. split; [vm_compute; reflexivity|].
  split; [reflexivity|discriminate].
Qed.

(** C6. The code on a batch of two matches of which none has an update to
    select.  The clone of the first is terminated with the not-applicable
    code.  The clone of the second is terminated by the installed-package
    store with another code and holds no Manifest, PackageVersion or
    Installer.  The round of the second match sets the flag of the loop all
    the same and reads the PackageVersion of its clone: the step ends in a
    fatal failure and the nothing-to-update line is not written. *)
Lemma no_update_selected_and_no_report :
  let context := Sample.searchContext [Sample.pkgAllOlder; Sample.pkgNotInstalled] in
  (exists c w,
     Sample.runClone context Sample.pkgAllOlder = Returned c w /\
     TerminationHR c = Some Sample.UPDATE_NOT_APPLICABLE) /\
  (exists c w,
     Sample.runClone context Sample.pkgNotInstalled = Returned c w /\
     TerminationHR c = Some Sample.NO_APPLICATIONS_FOUND /\
     dManifest (Data_ c) = None /\
     dPackageVersion (Data_ c) = None /\
     dInstaller (Data_ c) = None) /\
  Sample.UpdateAllLoop context [Sample.pkgAllOlder; Sample.pkgNotInstalled]
    = Thrown (DataNotFound Data.PackageVersion) /\
  Sample.UpdateAll context = Thrown (DataNotFound Data.PackageVersion) /\
  Sample.UpdateAll context <> Returned context [Resource.UpdateNotApplicable].
Proof.
  split; [|split; [|split; [|split]]].
  - eexists. eexists. split; [vm_compute; reflexivity|reflexivity].
  - eexists. eexists. split; [vm_compute; reflexivity|]. repeat split.
  - vm_compute. reflexivity.
  - vm_compute. reflexivity.
  - intros H. vm_compute in H. discriminate H.
Qed.

(** X10 on three matches: the first is not applicable, the other two have
    updates. *)
Lemma UpdateAllApplicable_loop_best_effort_witness :
  exists st',
    Sample.UpdateAllLoop Sample.emptyContext
      [Sample.pkgAllOlder; Sample.pkgPlain; Sample.pkgSkipNewest]
    = Returned st'
        (flat_map
           (cloneOutput Sample.UPDATE_NOT_APPLICABLE Sample.sampleComparator
              Sample.sampleGetInstalledPackageVersion Sample.sampleReportExecutionStage
              Sample.emptyContext)
           (map (fun p => {| Repository.Package := p |})
              [Sample.pkgAllOlder; Sample.pkgPlain; Sample.pkgSkipNewest])) /\
    matchIndex st' = 0 + 3.
Proof.
  destruct (proj2 (proj2 (UpdateAllApplicable_loop_best_effort
                            Sample.UPDATE_NOT_APPLICABLE Sample.sampleComparator
                            Sample.sampleGetInstalledPackageVersion
                            Sample.sampleReportExecutionStage
                            Sample.sampleSubExecutionId Sample.emptyContext))
              (map (fun p => {| Repository.Package := p |})
                 [Sample.pkgAllOlder; Sample.pkgPlain; Sample.pkgSkipNewest])
              initialBatch)
    as (st' & Hloop & Hidx & _).
  - vm_compute. reflexivity.
  - exists st'. split; [exact Hloop|exact Hidx].
Defined.

(** C4 on three records: the second repeats the key of the first. *)
Lemma AddToPackagesToInstallIfNotPresent_first_wins_witness :
  fold_left AddToPackagesToInstallIfNotPresent
    [Sample.update "Contoso.Editor" "winget" "2.5" 1;
     Sample.update "Contoso.Editor" "winget" "2.5" 2;
     Sample.update "Contoso.Plain" "winget" "2.0" 3] []
  = [Sample.update "Contoso.Editor" "winget" "2.5" 1;
     Sample.update "Contoso.Plain" "winget" "2.0" 3].
Proof.
  apply (proj1 (proj1 (proj2 (proj2 (proj2
           (AddToPackagesToInstallIfNotPresent_first_wins
              Sample.UPDATE_NOT_APPLICABLE Sample.sampleSubExecutionId))))
           (Sample.update "Contoso.Editor" "winget" "2.5" 1)
           (Sample.update "Contoso.Editor" "winget" "2.5" 2)
           (Sample.update "Contoso.Plain" "winget" "2.0" 3))).
  - reflexivity.
  - vm_compute. discriminate.
Defined.

(** X11 on two matches that are both up to date. *)
Lemma UpdateAllApplicable_nothing_to_update_witness :
  Sample.UpdateAll (Sample.searchContext [Sample.pkgAllOlder; Sample.pkgAllOlder])
  = Returned (Sample.searchContext [Sample.pkgAllOlder; Sample.pkgAllOlder])
      [Resource.UpdateNotApplicable].
Proof.
  apply (proj1 (proj2 (proj2
           (UpdateAllApplicable_nothing_to_update
              Sample.UPDATE_NOT_APPLICABLE Sample.UPDATE_ALL_HAS_FAILURE
              Sample.sampleComparator Sample.sampleGetInstalledPackageVersion
              Sample.sampleReportExecutionStage Sample.sampleSubExecutionId
              (Sample.searchContext [Sample.pkgAllOlder; Sample.pkgAllOlder])
              {| Repository.Matches :=
                   map (fun p => {| Repository.Package := p |})
                     [Sample.pkgAllOlder; Sample.pkgAllOlder] |}
              Sample.sampleInstallMultiplePackages
              eq_refl
              ltac:(vm_compute; reflexivity))))).
  vm_compute. reflexivity.
Defined.

(** C7 on the package whose newest version is skipped: 2.5 is selected. *)
Lemma SelectLatestApplicableUpdate_success_witness :
  exists context',
    Sample.Select true (Sample.contextFor Sample.pkgSkipNewest) = Returned context' [] /\
    option_map Manifest.Version (dManifest (Data_ context')) = Some "2.5" /\
    option_map Manifest.CurrentLocalization (dManifest (Data_ context')) = Some "en-US" /\
    dInstaller (Data_ context') = Some (Some Sample.msiX64) /\
    TerminationHR context' = None.
Proof.
  destruct (SelectLatestApplicableUpdate_success
              Sample.UPDATE_NOT_APPLICABLE Sample.sampleComparator
              true (Sample.contextFor Sample.pkgSkipNewest) Sample.pkgSkipNewest
              (Sample.installedVersion "Contoso.Editor" "2.0")
              [Sample.key "winget" "3.0"] (Sample.key "winget" "2.5") []
              Sample.msiX64 []
              eq_refl eq_refl eq_refl
              ltac:(vm_compute; reflexivity)
              ltac:(vm_compute; reflexivity)
              ltac:(vm_compute; reflexivity))
    as (context' & r & Hsel & Hman & _ & _ & Hinst & _ & _ & _ & _ & Hterm & _).
  exists context'. split; [exact Hsel|].
  split; [now rewrite Hman|]. split; [now rewrite Hman|].
  split; [exact Hinst|exact Hterm].
Defined.

(** C8 on the package whose versions are all older: the step terminates the
    context. *)
Lemma SelectLatestApplicableUpdate_terminates_iff_witness :
  exists context' w,
    Sample.Select true (Sample.contextFor Sample.pkgAllOlder) = Returned context' w /\
    (TerminationHR context' = None \/
     TerminationHR context' = Some Sample.UPDATE_NOT_APPLICABLE).
Proof.
  destruct (proj1 (SelectLatestApplicableUpdate_terminates_iff
                     Sample.UPDATE_NOT_APPLICABLE Sample.sampleComparator
                     true (Sample.contextFor Sample.pkgAllOlder) Sample.pkgAllOlder
                     (Sample.installedVersion "Contoso.Viewer" "2.0")
                     eq_refl eq_refl eq_refl))
    as (context' & w & Hsel & _ & Hterm).
  exists context', w. split; [exact Hsel|exact Hterm].
Defined.

(** C9 on a context that holds 1.0 as installed and the manifest of 2.0, and
    on one that holds 2.0 as installed and the manifest of 1.5. *)
Lemma EnsureUpdateVersionApplicable_spec_witness :
  Sample.Ensure (Sample.revalidationContext Sample.pkgPlain "2.0")
    = Returned (Sample.revalidationContext Sample.pkgPlain "2.0") [] /\
  Sample.Ensure (Sample.revalidationContext Sample.pkgAllOlder "1.5")
    = Returned (Terminate (Sample.revalidationContext Sample.pkgAllOlder "1.5")
                  Sample.UPDATE_NOT_APPLICABLE)
        [Resource.UpdateNotApplicable].
Proof.
  split.
  - exact (proj1 (EnsureUpdateVersionApplicable_spec
                    Sample.UPDATE_NOT_APPLICABLE
                    (Sample.revalidationContext Sample.pkgPlain "2.0")
                    (Sample.installedVersion "Contoso.Plain" "1.0")
                    (Repository.GetManifest
                       (Repository.GetAvailableVersion Sample.pkgPlain
                          (Sample.key "winget" "2.0")))
                    eq_refl eq_refl)).
  - exact (proj1 (EnsureUpdateVersionApplicable_spec
                    Sample.UPDATE_NOT_APPLICABLE
                    (Sample.revalidationContext Sample.pkgAllOlder "1.5")
                    (Sample.installedVersion "Contoso.Viewer" "2.0")
                    (Repository.GetManifest
                       (Repository.GetAvailableVersion Sample.pkgAllOlder
                          (Sample.key "winget" "1.5")))
                    eq_refl eq_refl)).
Defined.

(* ================================================================== *)
(** * More on the scan over the version keys *)

Lemma scanTrace_logged evs r : scanTrace (logged evs r) = evs ++ scanTrace r.
Proof. reflexivity. Qed.

(** Whenever the loop finds an update, the key it chose comes after a run of
    skipped keys, passes the version test and has a chosen installer, and the
    context holds the data of that key. *)
Lemma scan_found_inv package cmp iv keys :
  forall iti context,
    updateFound (scanVersionKeys package cmp iv keys iti context) = true ->
    exists skipped key later chosen flags,
      keys = skipped ++ key :: later /\
      forallb (skippedKey package cmp iv) skipped = true /\
      applicableKey iv key = true /\
      preferredFor package cmp key = (Some chosen, flags) /\
      scanContext (scanVersionKeys package cmp iv keys iti context) =
      Add_Installer
        (Add_PackageVersion
           (Add_Manifest context
              (Manifest.ApplyLocale
                 (Repository.GetManifest (Repository.GetAvailableVersion package key))
                 (Manifest.Locale chosen)))
           (Repository.GetAvailableVersion package key))
        (Some chosen).
Proof.
  induction keys as [|k keys IH]; intros iti context; [discriminate|].
  destruct (applicableKey iv k) eqn:Ha.
  - destruct (preferredFor package cmp k) as [[chosen|] flags] eqn:Hp.
    + rewrite (scan_selected _ _ _ _ _ _ _ _ _ Ha Hp). intros _.
      exists [], k, keys, chosen, flags. simpl. auto.
    + assert (Hk : skippedKey package cmp iv k = true)
        by (unfold skippedKey; rewrite Ha, Hp; reflexivity).
      rewrite (scan_skipped _ _ _ _ _ _ _ Hk). simpl. intros Hf.
      destruct (IH _ _ Hf) as (skipped & key & later & chosen & fl & He & Hs & Hka & Hkp & Hc).
      exists (k :: skipped), key, later, chosen, fl.
      split; [simpl; now rewrite He|]. split; [simpl; now rewrite Hk, Hs|].
      split; [exact Hka|]. split; [exact Hkp|exact Hc].
  - rewrite (scan_inapplicable _ _ _ _ _ _ _ Ha). discriminate.
Qed.

(** X1. Whatever the keys and the comparator, the keys the loop tests are a
    prefix of the key list, in its order; the keys it resolves are the
    tested keys that pass the version test; and the tested keys are the
    resolved keys, followed by at most one more key, which fails the version
    test: only the last tested key can be left unresolved. *)
Theorem scan_examines_a_prefix package cmp installedVersion keys iti context :
  let trace := scanTrace (scanVersionKeys package cmp installedVersion keys iti context) in
  (exists untouched, keys = checkedKeys trace ++ untouched) /\
  resolvedKeys trace = filter (applicableKey installedVersion) (checkedKeys trace) /\
  List.length (checkedKeys trace) <= List.length (resolvedKeys trace) + 1 /\
  (checkedKeys trace = resolvedKeys trace \/
   exists last,
     checkedKeys trace = resolvedKeys trace ++ [last] /\
     applicableKey installedVersion last = false).
Proof.
  revert iti context.
  induction keys as [|k keys IH]; intros iti context; simpl.
  - split; [exists []; reflexivity|]. split; [reflexivity|]. split; [lia|now left].
  - fold (applicableKey installedVersion k).
    destruct (applicableKey installedVersion k) eqn:Ha.
    + fold (preferredFor package cmp k).
      destruct (preferredFor package cmp k) as [[chosen|] flags] eqn:Hp; simpl.
      * rewrite Ha. split; [exists keys; reflexivity|]. split; [reflexivity|].
        split; [lia|now left].
      * rewrite Ha.
        destruct (IH (if foundInstalledType flags then true else iti) context)
          as ((rest & Hrest) & Hres & Hlen & Hlast).
        split; [exists rest; now rewrite <- Hrest|].
        split; [now rewrite <- Hres|]. split; [simpl in *; lia|].
        destruct Hlast as [Heq|(last & Heq & Hl)].
        -- left. now rewrite <- Heq.
        -- right. exists last. split; [now rewrite Heq|exact Hl].
    + simpl. rewrite Ha. split; [exists keys; reflexivity|]. split; [reflexivity|].
      split; [lia|]. right. exists k. split; [reflexivity|exact Ha].
Qed.

(** X2. The loop finds an update exactly when the key list is a run of
    skipped keys followed by a key that passes the version test and has a
    chosen installer, and it then returns the context with the data of that
    key: its manifest with the locale of the chosen installer applied, its
    resolved version and the chosen installer.  So the key it selects is the
    first such key of the list; a key that fails the test, or that follows
    one that fails it, is never selected.  When it finds no update it
    returns the context as it got it. *)
Theorem scan_selects_first_eligible_key package cmp installedVersion keys iti context :
  let r := scanVersionKeys package cmp installedVersion keys iti context in
  (updateFound r = true <->
   exists skipped key later chosen flags,
     keys = skipped ++ key :: later /\
     forallb (skippedKey package cmp installedVersion) skipped = true /\
     applicableKey installedVersion key = true /\
     preferredFor package cmp key = (Some chosen, flags) /\
     eligibleKey package cmp installedVersion key = true /\
     scanContext r =
       Add_Installer
         (Add_PackageVersion
            (Add_Manifest context
               (Manifest.ApplyLocale
                  (Repository.GetManifest (Repository.GetAvailableVersion package key))
                  (Manifest.Locale chosen)))
            (Repository.GetAvailableVersion package key))
         (Some chosen)) /\
  (updateFound r = false -> scanContext r = context).
Proof.
  intros r. subst r. split; [split|].
  - intros Hf.
    destruct (scan_found_inv package cmp installedVersion keys iti context Hf)
      as (skipped & key & later & chosen & flags & He & Hs & Ha & Hp & Hc).
    exists skipped, key, later, chosen, flags. unfold eligibleKey. rewrite Ha, Hp.
    repeat split; auto.
  - intros (skipped & key & later & chosen & flags & -> & Hs & Ha & Hp & _ & _).
    rewrite (scan_skipped_prefix _ _ _ _ _ _ _ Hs).
    rewrite (scan_selected _ _ _ _ _ _ _ _ _ Ha Hp). reflexivity.
  - apply scan_not_found_context.
Qed.

Lemma none_applicable_none_eligible package cmp iv keys :
  forallb (fun k => negb (applicableKey iv k)) keys = true ->
  existsb (eligibleKey package cmp iv) keys = false.
Proof.
  induction keys as [|k keys IH]; simpl; [reflexivity|].
  intros H. apply andb_true_iff in H. destruct H as [Hk Hr].
  unfold eligibleKey at 1. apply negb_true_iff in Hk. rewrite Hk. simpl. now apply IH.
Qed.

(** X3. When no key that passes the version test comes after one that fails
    it, as for keys sorted from newest to oldest, stopping at the first
    failing key loses nothing: the loop finds an update exactly when some
    key of the whole list passes the test and has a chosen installer.  On
    keys out of order it can miss one: with 2.0 installed and the keys 1.0
    and 3.0 the step stops at 1.0. *)
Theorem scan_complete_on_ordered_keys :
  (forall package cmp installedVersion keys iti context,
      applicableFirst installedVersion keys = true ->
      updateFound (scanVersionKeys package cmp installedVersion keys iti context) =
      existsb (eligibleKey package cmp installedVersion) keys) /\
  (let cmp := Sample.sampleComparator Sample.emptyContext Sample.installedFromMsi in
   let keys := Repository.GetAvailableVersionKeys Sample.pkgUnsorted in
   map Repository.KeyVersion keys = ["1.0"; "3.0"] /\
   applicableFirst (Version_of "2.0") keys = false /\
   existsb (eligibleKey Sample.pkgUnsorted cmp (Version_of "2.0")) keys = true /\
   SampleView.termination (Sample.Select true (Sample.contextFor Sample.pkgUnsorted))
     = Some Sample.UPDATE_NOT_APPLICABLE).
Proof.
  split; [|repeat split; vm_compute; reflexivity].
  intros package cmp iv keys. induction keys as [|k keys IH]; intros iti context H.
  - reflexivity.
  - simpl in H. apply andb_true_iff in H. destruct H as [Hk Hrest].
    destruct (applicableKey iv k) eqn:Ha.
    + destruct (preferredFor package cmp k) as [[chosen|] flags] eqn:Hp.
      * rewrite (scan_selected _ _ _ _ _ _ _ _ _ Ha Hp). simpl.
        unfold eligibleKey. now rewrite Ha, Hp.
      * assert (Hs : skippedKey package cmp iv k = true)
          by (unfold skippedKey; rewrite Ha, Hp; reflexivity).
        rewrite (scan_skipped _ _ _ _ _ _ _ Hs). simpl.
        rewrite (IH _ _ Hrest). unfold eligibleKey at 2. now rewrite Ha, Hp.
    + rewrite (scan_inapplicable _ _ _ _ _ _ _ Ha). simpl in *.
      unfold eligibleKey at 1. rewrite Ha. simpl.
      symmetry. now apply none_applicable_none_eligible.
Qed.

(** The loop leaves the four slots it does not add to as they are. *)
Lemma scan_frame package cmp iv keys :
  forall iti context,
    let c := scanContext (scanVersionKeys package cmp iv keys iti context) in
    dPackage (Data_ c) = dPackage (Data_ context) /\
    dInstalledPackageVersion (Data_ c) = dInstalledPackageVersion (Data_ context) /\
    dSearchResult (Data_ c) = dSearchResult (Data_ context) /\
    dPackagesToInstall (Data_ c) = dPackagesToInstall (Data_ context).
Proof.
  induction keys as [|k keys IH]; intros iti context; simpl; [auto|].
  destruct (IsUpdateVersionApplicable _ _); [|simpl; auto].
  destruct (GetPreferredInstaller cmp _) as [[chosen|] flags]; simpl; [auto|].
  apply IH.
Qed.

(* ================================================================== *)
(** * More on the selection step and the re-validation step *)

Section SelectionComposition.

Variable APPINSTALLER_CLI_ERROR_UPDATE_NOT_APPLICABLE : HRESULT.
Variable newManifestComparator : Context -> Repository.Metadata -> ManifestComparator.

Local Abbreviation NotApplicable := APPINSTALLER_CLI_ERROR_UPDATE_NOT_APPLICABLE.
Local Abbreviation Select := (SelectLatestApplicableUpdate NotApplicable newManifestComparator).
Local Abbreviation SelectFinish := (SelectLatestApplicableUpdate_finish NotApplicable).
Local Abbreviation Ensure := (EnsureUpdateVersionApplicable NotApplicable).

(** X4. Whenever the selection step returns, on any context, it has left the
    Package, InstalledPackageVersion, SearchResult and PackagesToInstall
    slots alone, and it has done one of two things.  Either it wrote nothing,
    left the terminal slot alone and filled Manifest, PackageVersion and
    Installer; or it left the whole data store as it was (nothing of a
    skipped version stays behind), terminated the context with the
    not-applicable code, and wrote one of its two lines with reporting
    enabled and nothing with reporting disabled. *)
Theorem SelectLatestApplicableUpdate_outcomes report context context' w :
  Select report context = Returned context' w ->
  (dPackage (Data_ context') = dPackage (Data_ context) /\
   dInstalledPackageVersion (Data_ context') = dInstalledPackageVersion (Data_ context) /\
   dSearchResult (Data_ context') = dSearchResult (Data_ context) /\
   dPackagesToInstall (Data_ context') = dPackagesToInstall (Data_ context)) /\
  ((w = [] /\
    TerminationHR context' = TerminationHR context /\
    exists manifest packageVersion installer,
      dManifest (Data_ context') = Some manifest /\
      dPackageVersion (Data_ context') = Some packageVersion /\
      dInstaller (Data_ context') = Some (Some installer)) \/
   (Data_ context' = Data_ context /\
    TerminationHR context' = Some NotApplicable /\
    if report
    then w = [Resource.UpgradeDifferentInstallTechnologyInNewerVersions] \/
         w = [Resource.UpdateNotApplicable]
    else w = [])).
Proof.
  unfold SelectLatestApplicableUpdate, SelectLatestApplicableUpdate_scan.
  destruct (dPackage (Data_ context)) as [p|] eqn:Hp; simpl; [|discriminate].
  destruct (dInstalledPackageVersion (Data_ context)) as [i|] eqn:Hi; simpl; [|discriminate].
  pose proof (scan_frame p (newManifestComparator context (Repository.GetMetadata i))
                (Version_of (Repository.GetProperty i Repository.Version))
                (Repository.GetAvailableVersionKeys p) false context) as Hframe.
  pose proof (scan_termination p (newManifestComparator context (Repository.GetMetadata i))
                (Version_of (Repository.GetProperty i Repository.Version))
                (Repository.GetAvailableVersionKeys p) false context) as Hterm.
  pose proof (scan_found_inv p (newManifestComparator context (Repository.GetMetadata i))
                (Version_of (Repository.GetProperty i Repository.Version))
                (Repository.GetAvailableVersionKeys p) false context) as Hfound.
  pose proof (scan_not_found_context p
                (newManifestComparator context (Repository.GetMetadata i))
                (Version_of (Repository.GetProperty i Repository.Version))
                (Repository.GetAvailableVersionKeys p) false context) as Hnot.
  cbv zeta in Hframe.
  remember (scanVersionKeys p (newManifestComparator context (Repository.GetMetadata i))
              (Version_of (Repository.GetProperty i Repository.Version))
              (Repository.GetAvailableVersionKeys p) false context) as r eqn:Hr.
  rewrite Hp, Hi in Hframe.
  unfold SelectLatestApplicableUpdate_finish.
  destruct (updateFound r) eqn:Hf; simpl.
  - intros H. injection H as <- <-. split; [exact Hframe|]. left.
    split; [reflexivity|]. split; [exact Hterm|].
    destruct (Hfound eq_refl) as (_ & key & _ & chosen & _ & _ & _ & _ & _ & ->).
    eexists. eexists. eexists. simpl. repeat split.
  - specialize (Hnot eq_refl).
    destruct report; [destruct (installedTypeInapplicable r)|]; simpl;
      intros H; injection H as <- <-; simpl; rewrite Hnot;
      (split; [rewrite Hp, Hi; auto|]); right; auto.
Qed.

(** X5. On a running context that holds its two inputs, for a package whose
    resolved manifests carry the version of their key, the re-validation
    step accepts what the selection step selected: running
    [EnsureUpdateVersionApplicable] after [SelectLatestApplicableUpdate]
    gives what the selection step alone gives, the same context and the same
    lines.  After a selection the test of the re-validation holds; after a
    termination the re-validation is not run. *)
Theorem EnsureUpdateVersionApplicable_after_selection report context package installed :
  dPackage (Data_ context) = Some package ->
  dInstalledPackageVersion (Data_ context) = Some installed ->
  TerminationHR context = None ->
  (forall key,
      In key (Repository.GetAvailableVersionKeys package) ->
      Manifest.Version (Repository.GetManifest (Repository.GetAvailableVersion package key))
      = Repository.KeyVersion key) ->
  bind (Select report context) (fun c => pipe c Ensure) = Select report context.
Proof.
  intros Hp Hi Ht Hver.
  rewrite (Select_eq NotApplicable newManifestComparator report _ _ _ Hp Hi).
  unfold scanOf.
  pose proof (scan_termination package
                (newManifestComparator context (Repository.GetMetadata installed))
                (Version_of (Repository.GetProperty installed Repository.Version))
                (Repository.GetAvailableVersionKeys package) false context) as Hterm.
  pose proof (scan_frame package
                (newManifestComparator context (Repository.GetMetadata installed))
                (Version_of (Repository.GetProperty installed Repository.Version))
                (Repository.GetAvailableVersionKeys package) false context) as Hframe.
  pose proof (scan_found_inv package
                (newManifestComparator context (Repository.GetMetadata installed))
                (Version_of (Repository.GetProperty installed Repository.Version))
                (Repository.GetAvailableVersionKeys package) false context) as Hfound.
  cbv zeta in Hframe. destruct Hframe as (_ & Hfi & _).
  remember (scanVersionKeys package
              (newManifestComparator context (Repository.GetMetadata installed))
              (Version_of (Repository.GetProperty installed Repository.Version))
              (Repository.GetAvailableVersionKeys package) false context) as r eqn:Hr.
  unfold SelectLatestApplicableUpdate_finish.
  destruct (updateFound r) eqn:Hf; simpl.
  - destruct (Hfound eq_refl)
      as (skipped & key & later & chosen & flags & Hk & _ & Ha & _ & Hc).
    unfold pipe, IsTerminated. rewrite Hterm, Ht.
    unfold EnsureUpdateVersionApplicable. rewrite Hfi, Hi. simpl.
    rewrite Hc. simpl.
    rewrite (Hver key) by (rewrite Hk; apply in_or_app; right; now left).
    unfold applicableKey in Ha. rewrite Ha. reflexivity.
  - destruct report; [destruct (installedTypeInapplicable r)|]; reflexivity.
Qed.

End SelectionComposition.

(* ================================================================== *)
(** * More on deduplication and the batch *)

Lemma firstOccurrences_incl ps :
  forall seen q, In q (firstOccurrences seen ps) -> In q ps.
Proof.
  induction ps as [|p ps IH]; intros seen q; simpl; [tauto|].
  destruct (existsb _ seen).
  - intros H. right. now apply (IH seen).
  - intros [<-|H]; [now left|]. right. now apply (IH (seen ++ [dedupKey p])).
Qed.

(** X9. Adding a record keeps the list as a prefix and lengthens it by the
    record or by nothing; afterwards the key of the record is present, so
    adding it, or any record with its key, a second time changes nothing; and
    a list without two entries of one key stays so. *)
Theorem AddToPackagesToInstallIfNotPresent_idempotent l p :
  (AddToPackagesToInstallIfNotPresent l p = l \/
   AddToPackagesToInstallIfNotPresent l p = l ++ [p]) /\
  isPresent (AddToPackagesToInstallIfNotPresent l p) p = true /\
  (forall q,
      dedupKey q = dedupKey p ->
      AddToPackagesToInstallIfNotPresent (AddToPackagesToInstallIfNotPresent l p) q =
      AddToPackagesToInstallIfNotPresent l p) /\
  (NoDup (map dedupKey l) ->
   NoDup (map dedupKey (AddToPackagesToInstallIfNotPresent l p))).
Proof.
  assert (Hpresent : isPresent (AddToPackagesToInstallIfNotPresent l p) p = true).
  { apply isPresent_true_iff. destruct (Add_has_key l p) as (q & Hq & Hk). now exists q. }
  split; [|split; [exact Hpresent|split]].
  - unfold AddToPackagesToInstallIfNotPresent. destruct (isPresent l p); auto.
  - intros q Hq. unfold AddToPackagesToInstallIfNotPresent at 1.
    replace (isPresent (AddToPackagesToInstallIfNotPresent l p) q) with true; [reflexivity|].
    symmetry. apply isPresent_true_iff. apply isPresent_true_iff in Hpresent.
    destruct Hpresent as (e & Hin & He). exists e. split; [exact Hin|congruence].
  - intros Hnd. unfold AddToPackagesToInstallIfNotPresent.
    destruct (isPresent l p) eqn:E; [exact Hnd|].
    rewrite map_app. simpl. apply NoDup_app; [exact Hnd|repeat constructor; simpl; tauto|].
    intros k Hk [<-|[]].
    assert (isPresent l p = true) as Habs; [|congruence].
    rewrite isPresent_seen. now apply seen_true_iff.
Qed.

Section BatchHandOver.

Variable APPINSTALLER_CLI_ERROR_UPDATE_NOT_APPLICABLE : HRESULT.
Variable APPINSTALLER_CLI_ERROR_UPDATE_ALL_HAS_FAILURE : HRESULT.
Variable newManifestComparator : Context -> Repository.Metadata -> ManifestComparator.
Variable GetInstalledPackageVersion : WorkflowTask.
Variable ReportExecutionStage : ExecutionStage -> WorkflowTask.
Variable GetCurrentSubExecutionId : nat -> N.

Local Abbreviation NotApplicable := APPINSTALLER_CLI_ERROR_UPDATE_NOT_APPLICABLE.
Local Abbreviation run :=
  (runUpdateContext NotApplicable newManifestComparator
     GetInstalledPackageVersion ReportExecutionStage).
Local Abbreviation collect := (collectUpdate NotApplicable GetCurrentSubExecutionId).
Local Abbreviation round :=
  (UpdateAllApplicable_round NotApplicable newManifestComparator
     GetInstalledPackageVersion ReportExecutionStage GetCurrentSubExecutionId).
Local Abbreviation loop :=
  (UpdateAllApplicable_loop NotApplicable newManifestComparator
     GetInstalledPackageVersion ReportExecutionStage GetCurrentSubExecutionId).
Local Abbreviation isNotApplicable :=
  (cloneNotApplicable NotApplicable newManifestComparator
     GetInstalledPackageVersion ReportExecutionStage).
Local Abbreviation isCollectable :=
  (cloneCollectable NotApplicable newManifestComparator
     GetInstalledPackageVersion ReportExecutionStage).
Local Abbreviation output :=
  (cloneOutput NotApplicable newManifestComparator
     GetInstalledPackageVersion ReportExecutionStage).
Local Abbreviation records :=
  (roundRecords NotApplicable newManifestComparator
     GetInstalledPackageVersion ReportExecutionStage GetCurrentSubExecutionId).

(** The list the loop builds is the fold of the deduplicating insertion over
    the records of the matches. *)
Lemma loop_records context matches :
  forall st,
    forallb (isCollectable context) matches = true ->
    exists st',
      loop context matches st = Returned st' (flat_map (output context) matches) /\
      packagesToInstall st' =
        fold_left AddToPackagesToInstallIfNotPresent
          (records context (matchIndex st) matches) (packagesToInstall st) /\
      updateAllFoundUpdate st' =
        updateAllFoundUpdate st || existsb (fun m => negb (isNotApplicable context m)) matches.
Proof.
  induction matches as [|m rest IH]; intros st Hall.
  - exists st. simpl. now rewrite orb_false_r.
  - simpl in Hall. apply andb_true_iff in Hall. destruct Hall as [Hm Hrest].
    unfold cloneCollectable in Hm. cbn [roundRecords existsb flat_map].
    unfold cloneOutput at 1. unfold cloneNotApplicable at 1.
    destruct (run context m) as [c w|e] eqn:Hrun; [|discriminate].
    destruct (terminatedWith c NotApplicable) eqn:Ht.
    + pose proof (round_not_applicable NotApplicable newManifestComparator
                    GetInstalledPackageVersion ReportExecutionStage
                    GetCurrentSubExecutionId context st m c w Hrun Ht) as Hround.
      destruct (IH {| packagesToInstall := packagesToInstall st;
                      updateAllFoundUpdate := updateAllFoundUpdate st;
                      matchIndex := S (matchIndex st) |} Hrest)
        as (st' & Hloop & Hlist & Hfound).
      exists st'.
      rewrite (loop_cons NotApplicable newManifestComparator GetInstalledPackageVersion
                 ReportExecutionStage GetCurrentSubExecutionId _ _ _ _ _ _ Hround).
      unfold bind. rewrite Hloop. simpl in *. auto.
    + simpl in Hm. destruct (updateOf 0%N c) as [p0|] eqn:Hp0; [|discriminate].
      destruct (updateOf_any_id c p0 0%N (GetCurrentSubExecutionId (matchIndex st)) Hp0)
        as (p & Hp & _).
      pose proof (round_update NotApplicable newManifestComparator
                    GetInstalledPackageVersion ReportExecutionStage
                    GetCurrentSubExecutionId context st m c w p Hrun Ht Hp) as Hround.
      destruct (IH {| packagesToInstall :=
                        AddToPackagesToInstallIfNotPresent (packagesToInstall st) p;
                      updateAllFoundUpdate := true;
                      matchIndex := S (matchIndex st) |} Hrest)
        as (st' & Hloop & Hlist & Hfound).
      exists st'.
      rewrite (loop_cons NotApplicable newManifestComparator GetInstalledPackageVersion
                 ReportExecutionStage GetCurrentSubExecutionId _ _ _ _ _ _ Hround).
      unfold bind. rewrite Hloop, Hp. simpl in *.
      split; [reflexivity|]. split; [exact Hlist|]. now rewrite orb_true_r.
Qed.

Lemma records_origin context matches :
  forall n q,
    In q (records context n matches) ->
    exists i m c w,
      nth_error matches i = Some m /\
      run context m = Returned c w /\
      TerminationHR c <> Some NotApplicable /\
      updateOf (GetCurrentSubExecutionId (n + i)) c = Some q.
Proof.
  induction matches as [|m rest IH]; intros n q; simpl; [tauto|].
  intros H. apply in_app_or in H. destruct H as [H|H].
  - destruct (run context m) as [c w|e] eqn:Hrun; [|destruct H].
    destruct (terminatedWith c NotApplicable) eqn:Ht; [destruct H|].
    destruct (updateOf (GetCurrentSubExecutionId n) c) as [p|] eqn:Hp; [|destruct H].
    destruct H as [<-|[]]. exists 0, m, c, w. rewrite Nat.add_0_r.
    repeat split; auto. intros Habs. apply terminatedWith_true_iff in Habs. congruence.
  - destruct (IH _ _ H) as (i & m' & c & w & Hn & Hrun & Ht & Hu).
    exists (S i), m', c, w. rewrite Nat.add_succ_r. auto.
Qed.

Lemma firstOccurrences_length ps :
  forall seen, List.length (firstOccurrences seen ps) <= List.length ps.
Proof.
  induction ps as [|p ps IH]; intros seen; simpl; [lia|].
  destruct (existsb _ seen); simpl.
  - specialize (IH seen). lia.
  - specialize (IH (seen ++ [dedupKey p])). lia.
Qed.

Lemma records_length context matches :
  forall n, List.length (records context n matches) <= List.length matches.
Proof.
  induction matches as [|m rest IH]; intros n; simpl; [lia|].
  rewrite length_app. specialize (IH (S n)).
  destruct (run context m) as [c w|e]; simpl; [|lia].
  destruct (terminatedWith c NotApplicable); simpl; [lia|].
  destruct (updateOf _ c); simpl; lia.
Qed.

Lemma collect_missing st c e :
  terminatedWith c NotApplicable = false ->
  missingItem c = Some e ->
  collect st c = Thrown e.
Proof.
  unfold collectUpdate, missingItem. intros ->.
  destruct (dPackageVersion (Data_ c)); simpl; [|intros H; injection H as <-; reflexivity].
  destruct (dInstalledPackageVersion (Data_ c)); simpl;
    [|intros H; injection H as <-; reflexivity].
  destruct (dManifest (Data_ c)); simpl; [|intros H; injection H as <-; reflexivity].
  destruct (dInstaller (Data_ c)) as [[chosen|]|]; simpl; try discriminate;
    intros H; injection H as <-; reflexivity.
Qed.

Lemma collectable_round_returns context m :
  isCollectable context m = true ->
  forall st, exists st1 w, round context st m = Returned st1 w.
Proof.
  unfold cloneCollectable. intros H st.
  destruct (run context m) as [c w|e] eqn:Hrun; [|discriminate].
  destruct (terminatedWith c NotApplicable) eqn:Ht.
  - eexists. eexists.
    apply (round_not_applicable NotApplicable newManifestComparator
             GetInstalledPackageVersion ReportExecutionStage
             GetCurrentSubExecutionId context st m c w Hrun Ht).
  - simpl in H. destruct (updateOf 0%N c) as [p0|] eqn:Hp0; [|discriminate].
    destruct (updateOf_any_id c p0 0%N (GetCurrentSubExecutionId (matchIndex st)) Hp0)
      as (p & Hp & _).
    eexists. eexists.
    apply (round_update NotApplicable newManifestComparator
             GetInstalledPackageVersion ReportExecutionStage
             GetCurrentSubExecutionId context st m c w p Hrun Ht Hp).
Qed.

(** X6. When the clones of all matches are collectable and at least one is
    not terminated with the not-applicable code, the step writes no line of
    its own: it puts the list into the PackagesToInstall slot of the parent
    context, whose other slots stay as they are, and passes that context to
    the batch installer together with the dependencies label, the
    update-all-has-failure code and the not-applicable code as the one code
    to ignore.  The list is, in the order of the matches, the first record
    of each deduplication key among the records of the clones. *)
Theorem UpdateAllApplicable_hands_over context searchResult InstallMultiplePackages :
  dSearchResult (Data_ context) = Some searchResult ->
  let matches := Repository.Matches searchResult in
  forallb (isCollectable context) matches = true ->
  existsb (fun m => negb (isNotApplicable context m)) matches = true ->
  UpdateAllApplicable NotApplicable APPINSTALLER_CLI_ERROR_UPDATE_ALL_HAS_FAILURE
    newManifestComparator GetInstalledPackageVersion ReportExecutionStage
    InstallMultiplePackages GetCurrentSubExecutionId context =
  bind
    (Returned
       (Add_PackagesToInstall context (firstOccurrences [] (records context 0 matches)))
       (flat_map (output context) matches))
    (fun c =>
       pipe c
         (InstallMultiplePackages Resource.InstallAndUpgradeCommandsReportDependencies
            APPINSTALLER_CLI_ERROR_UPDATE_ALL_HAS_FAILURE [NotApplicable])).
Proof.
  intros Hsr matches Hall Hsome.
  unfold UpdateAllApplicable. rewrite Hsr. simpl Get. rewrite bind_ret_l. fold matches.
  destruct (loop_records context matches initialBatch Hall) as (st' & Hloop & Hlist & Hfound).
  rewrite Hloop. simpl in Hlist, Hfound. rewrite Hsome in Hfound.
  rewrite fold_Add_firstOccurrences in Hlist. simpl in Hlist.
  unfold bind at 1. rewrite Hfound. cbn [negb]. rewrite bind_ret_l, Hlist.
  reflexivity.
Qed.

(** X7. On matches whose clones are all collectable the loop returns a list
    that is the first record of each deduplication key among the records of
    the clones, in the order of the matches.  So the list has no two entries
    with the same package id, version and source identifier, it is no longer
    than the list of matches, and each entry is the record of a match whose
    clone is not terminated with the not-applicable code, with the
    correlation id of the round of that match. *)
Theorem UpdateAllApplicable_loop_result context matches :
  forallb (isCollectable context) matches = true ->
  exists st',
    loop context matches initialBatch = Returned st' (flat_map (output context) matches) /\
    packagesToInstall st' = firstOccurrences [] (records context 0 matches) /\
    NoDup (map dedupKey (packagesToInstall st')) /\
    List.length (packagesToInstall st') <= List.length matches /\
    (forall q,
        In q (packagesToInstall st') ->
        exists i m c w,
          nth_error matches i = Some m /\
          run context m = Returned c w /\
          TerminationHR c <> Some NotApplicable /\
          updateOf (GetCurrentSubExecutionId i) c = Some q).
Proof.
  intros Hall.
  destruct (loop_records context matches initialBatch Hall) as (st' & Hloop & Hlist & _).
  simpl in Hlist. rewrite fold_Add_firstOccurrences in Hlist. simpl in Hlist.
  exists st'. split; [exact Hloop|]. split; [exact Hlist|]. rewrite Hlist.
  split; [|split].
  - apply (firstOccurrences_NoDup (records context 0 matches) []). constructor.
  - pose proof (firstOccurrences_length (records context 0 matches) []).
    pose proof (records_length context matches 0). lia.
  - intros q Hq. apply firstOccurrences_incl in Hq.
    destruct (records_origin context matches 0 q Hq) as (i & m & c & w & H).
    exists i, m, c, w. exact H.
Qed.

(** X8. When a clone that is not terminated with the not-applicable code
    lacks one of the four items a round reads from it, and the clones of the
    matches before it are collectable, the loop ends at that match with the
    failure of the first missing item, in the order PackageVersion,
    InstalledPackageVersion, Manifest, Installer: the matches after it do not
    count, and the step returns no context, whatever the batch installer is. *)
Theorem UpdateAllApplicable_incomplete_clone
  context searchResult InstallMultiplePackages before m after c w e :
  dSearchResult (Data_ context) = Some searchResult ->
  Repository.Matches searchResult = before ++ m :: after ->
  forallb (isCollectable context) before = true ->
  run context m = Returned c w ->
  TerminationHR c <> Some NotApplicable ->
  missingItem c = Some e ->
  (forall st, loop context (before ++ m :: after) st = Thrown e) /\
  UpdateAllApplicable NotApplicable APPINSTALLER_CLI_ERROR_UPDATE_ALL_HAS_FAILURE
    newManifestComparator GetInstalledPackageVersion ReportExecutionStage
    InstallMultiplePackages GetCurrentSubExecutionId context = Thrown e.
Proof.
  intros Hsr Hm Hbefore Hrun Ht Hmiss.
  assert (Htw : terminatedWith c NotApplicable = false).
  { destruct (terminatedWith c NotApplicable) eqn:E; [|reflexivity].
    apply terminatedWith_true_iff in E. contradiction. }
  assert (Hloop : forall st, loop context (before ++ m :: after) st = Thrown e).
  { clear Hm. induction before as [|b before IH]; intros st.
    - simpl. unfold UpdateAllApplicable_round. rewrite Hrun. unfold bind at 2.
      now rewrite (collect_missing st c e Htw Hmiss).
    - simpl in Hbefore. apply andb_true_iff in Hbefore. destruct Hbefore as [Hb Hrest].
      destruct (collectable_round_returns context b Hb st) as (st1 & w1 & Hround).
      rewrite <- app_comm_cons.
      rewrite (loop_cons NotApplicable newManifestComparator GetInstalledPackageVersion
                 ReportExecutionStage GetCurrentSubExecutionId _ _ _ _ _ _ Hround).
      unfold bind. now rewrite (IH Hrest). }
  split; [exact Hloop|].
  unfold UpdateAllApplicable. rewrite Hsr. simpl Get. rewrite bind_ret_l, Hm, Hloop.
  reflexivity.
Qed.

End BatchHandOver.

(* ================================================================== *)
(** * The further statements on the sample catalog *)

(** X2 on the package whose newest version is skipped: 2.5 is the key whose
    data the loop returns. *)
Lemma scan_selects_first_eligible_key_witness :
  let cmp := Sample.sampleComparator Sample.emptyContext Sample.installedFromMsi in
  let r := scanVersionKeys Sample.pkgSkipNewest cmp (Version_of "2.0")
             (Repository.GetAvailableVersionKeys Sample.pkgSkipNewest)
             false Sample.emptyContext in
  exists skipped key later chosen flags,
    Repository.GetAvailableVersionKeys Sample.pkgSkipNewest = skipped ++ key :: later /\
    forallb (skippedKey Sample.pkgSkipNewest cmp (Version_of "2.0")) skipped = true /\
    applicableKey (Version_of "2.0") key = true /\
    preferredFor Sample.pkgSkipNewest cmp key = (Some chosen, flags) /\
    eligibleKey Sample.pkgSkipNewest cmp (Version_of "2.0") key = true /\
    scanContext r =
      Add_Installer
        (Add_PackageVersion
           (Add_Manifest Sample.emptyContext
              (Manifest.ApplyLocale
                 (Repository.GetManifest
                    (Repository.GetAvailableVersion Sample.pkgSkipNewest key))
                 (Manifest.Locale chosen)))
           (Repository.GetAvailableVersion Sample.pkgSkipNewest key))
        (Some chosen).
Proof.
  apply (proj1 (proj1 (scan_selects_first_eligible_key
                         Sample.pkgSkipNewest
                         (Sample.sampleComparator Sample.emptyContext Sample.installedFromMsi)
                         (Version_of "2.0")
                         (Repository.GetAvailableVersionKeys Sample.pkgSkipNewest)
                         false Sample.emptyContext))).
  vm_compute. reflexivity.
Defined.

(** X3 on the same package, whose keys are in order. *)
Lemma scan_complete_on_ordered_keys_witness :
  let cmp := Sample.sampleComparator Sample.emptyContext Sample.installedFromMsi in
  let keys := Repository.GetAvailableVersionKeys Sample.pkgSkipNewest in
  updateFound (scanVersionKeys Sample.pkgSkipNewest cmp (Version_of "2.0") keys false
                 Sample.emptyContext)
  = existsb (eligibleKey Sample.pkgSkipNewest cmp (Version_of "2.0")) keys.
Proof.
  apply (proj1 scan_complete_on_ordered_keys
           Sample.pkgSkipNewest
           (Sample.sampleComparator Sample.emptyContext Sample.installedFromMsi)
           (Version_of "2.0")
           (Repository.GetAvailableVersionKeys Sample.pkgSkipNewest)
           false Sample.emptyContext).
  vm_compute. reflexivity.
Defined.

(** X4 on the package whose versions are all older. *)
Lemma SelectLatestApplicableUpdate_outcomes_witness :
  let context := Sample.contextFor Sample.pkgAllOlder in
  let context' := Terminate context Sample.UPDATE_NOT_APPLICABLE in
  Sample.Select true context = Returned context' [Resource.UpdateNotApplicable] /\
  dPackage (Data_ context') = dPackage (Data_ context) /\
  dInstalledPackageVersion (Data_ context') = dInstalledPackageVersion (Data_ context) /\
  dSearchResult (Data_ context') = dSearchResult (Data_ context) /\
  dPackagesToInstall (Data_ context') = dPackagesToInstall (Data_ context).
Proof.
  assert (H : Sample.Select true (Sample.contextFor Sample.pkgAllOlder) =
              Returned (Terminate (Sample.contextFor Sample.pkgAllOlder)
                          Sample.UPDATE_NOT_APPLICABLE)
                [Resource.UpdateNotApplicable])
    by (vm_compute; reflexivity).
  split; [exact H|].
  exact (proj1 (SelectLatestApplicableUpdate_outcomes
                  Sample.UPDATE_NOT_APPLICABLE Sample.sampleComparator
                  true (Sample.contextFor Sample.pkgAllOlder)
                  (Terminate (Sample.contextFor Sample.pkgAllOlder)
                     Sample.UPDATE_NOT_APPLICABLE)
                  [Resource.UpdateNotApplicable] H)).
Defined.

(** X5 on the package whose newest version is skipped. *)
Lemma EnsureUpdateVersionApplicable_after_selection_witness :
  bind (Sample.Select true (Sample.contextFor Sample.pkgSkipNewest))
       (fun c => pipe c Sample.Ensure)
  = Sample.Select true (Sample.contextFor Sample.pkgSkipNewest).
Proof.
  apply (EnsureUpdateVersionApplicable_after_selection
           Sample.UPDATE_NOT_APPLICABLE Sample.sampleComparator
           true (Sample.contextFor Sample.pkgSkipNewest) Sample.pkgSkipNewest
           (Sample.installedVersion "Contoso.Editor" "2.0")).
  - reflexivity.
  - reflexivity.
  - reflexivity.
  - intros key [<-|[<-|[]]]; reflexivity.
Defined.

(** X6 on two matches: the first is up to date, the second has an update. *)
Lemma UpdateAllApplicable_hands_over_witness :
  SampleView.batch
    (Sample.UpdateAll (Sample.searchContext [Sample.pkgAllOlder; Sample.pkgPlain]))
  = Some [("Contoso.Plain", "2.0", "winget", 2%N)] /\
  written (Sample.UpdateAll (Sample.searchContext [Sample.pkgAllOlder; Sample.pkgPlain]))
  = [Resource.InstallAndUpgradeCommandsReportDependencies].
Proof.
  unfold Sample.UpdateAll.
  rewrite (UpdateAllApplicable_hands_over
             Sample.UPDATE_NOT_APPLICABLE Sample.UPDATE_ALL_HAS_FAILURE
             Sample.sampleComparator Sample.sampleGetInstalledPackageVersion
             Sample.sampleReportExecutionStage Sample.sampleSubExecutionId
             (Sample.searchContext [Sample.pkgAllOlder; Sample.pkgPlain])
             {| Repository.Matches :=
                  map (fun p => {| Repository.Package := p |})
                    [Sample.pkgAllOlder; Sample.pkgPlain] |}
             Sample.sampleInstallMultiplePackages
             eq_refl
             ltac:(vm_compute; reflexivity)
             ltac:(vm_compute; reflexivity)).
  split; vm_compute; reflexivity.
Defined.

(** X7 on three matches of which the first and the third resolve to the same
    update. *)
Lemma UpdateAllApplicable_loop_result_witness :
  exists st',
    Sample.UpdateAllLoop Sample.emptyContext
      [Sample.pkgSkipNewest; Sample.pkgPlain; Sample.pkgEditorAgain]
    = Returned st'
        (flat_map
           (cloneOutput Sample.UPDATE_NOT_APPLICABLE Sample.sampleComparator
              Sample.sampleGetInstalledPackageVersion Sample.sampleReportExecutionStage
              Sample.emptyContext)
           (map (fun p => {| Repository.Package := p |})
              [Sample.pkgSkipNewest; Sample.pkgPlain; Sample.pkgEditorAgain])) /\
    NoDup (map dedupKey (packagesToInstall st')) /\
    List.length (packagesToInstall st') <= 3.
Proof.
  destruct (UpdateAllApplicable_loop_result
              Sample.UPDATE_NOT_APPLICABLE Sample.sampleComparator
              Sample.sampleGetInstalledPackageVersion Sample.sampleReportExecutionStage
              Sample.sampleSubExecutionId Sample.emptyContext
              (map (fun p => {| Repository.Package := p |})
                 [Sample.pkgSkipNewest; Sample.pkgPlain; Sample.pkgEditorAgain]))
    as (st' & Hloop & _ & Hnd & Hlen & _).
  - vm_compute. reflexivity.
  - exists st'. split; [exact Hloop|]. split; [exact Hnd|exact Hlen].
Defined.

(** X8 on three matches: the first is up to date, the store knows no
    installed version of the second, the third has an update. *)
Lemma UpdateAllApplicable_incomplete_clone_witness :
  Sample.UpdateAll
    (Sample.searchContext [Sample.pkgAllOlder; Sample.pkgNotInstalled; Sample.pkgPlain])
  = Thrown (DataNotFound Data.PackageVersion).
Proof.
  apply (proj2 (UpdateAllApplicable_incomplete_clone
           Sample.UPDATE_NOT_APPLICABLE Sample.UPDATE_ALL_HAS_FAILURE
           Sample.sampleComparator Sample.sampleGetInstalledPackageVersion
           Sample.sampleReportExecutionStage Sample.sampleSubExecutionId
           (Sample.searchContext
              [Sample.pkgAllOlder; Sample.pkgNotInstalled; Sample.pkgPlain])
           {| Repository.Matches :=
                map (fun p => {| Repository.Package := p |})
                  [Sample.pkgAllOlder; Sample.pkgNotInstalled; Sample.pkgPlain] |}
           Sample.sampleInstallMultiplePackages
           [{| Repository.Package := Sample.pkgAllOlder |}]
           {| Repository.Package := Sample.pkgNotInstalled |}
           [{| Repository.Package := Sample.pkgPlain |}]
           (Terminate (Add_Package Sample.emptyContext Sample.pkgNotInstalled)
              Sample.NO_APPLICATIONS_FOUND)
           []
           (DataNotFound Data.PackageVersion)
           eq_refl eq_refl
           ltac:(vm_compute; reflexivity)
           ltac:(vm_compute; reflexivity)
           ltac:(simpl; discriminate)
           eq_refl)).
Defined.

(** X9 on a record added twice under two correlation ids. *)
Lemma AddToPackagesToInstallIfNotPresent_idempotent_witness :
  AddToPackagesToInstallIfNotPresent
    (AddToPackagesToInstallIfNotPresent [] (Sample.update "Contoso.Editor" "winget" "2.5" 1))
    (Sample.update "Contoso.Editor" "winget" "2.5" 2)
  = AddToPackagesToInstallIfNotPresent [] (Sample.update "Contoso.Editor" "winget" "2.5" 1).
Proof.
  apply (proj1 (proj2 (proj2 (AddToPackagesToInstallIfNotPresent_idempotent
                                [] (Sample.update "Contoso.Editor" "winget" "2.5" 1))))
           (Sample.update "Contoso.Editor" "winget" "2.5" 2)).
  reflexivity.
Defined.
